(** * check_hp_disk_firmware: the OID helpers, the drive rules, the aggregator
      and the control flow of [main]

    A shallow embedding of the Go sources.  Go strings are byte sequences and
    are embedded as [string] (a list of 8-bit [ascii]); [len] is [length]; a Go
    slice expression is embedded with its run-time bounds check, so a function
    that can panic returns an [outcome]. *)

From Stdlib Require Import Bool Arith ZArith List Ascii String Lia.
From Stdlib Require Import Numbers.DecimalString.
Import ListNotations.

Local Open Scope string_scope.
Local Open Scope bool_scope.

(* ================================================================= *)
(** ** Go run-time values *)

(** The result of a Go expression that may panic. *)
Inductive outcome (A : Type) : Type :=
| Returns (a : A)
| Panics.
Arguments Returns {A} a.
Arguments Panics {A}.

Definition and_then {A B : Type} (m : outcome A) (k : A -> outcome B) : outcome B :=
  match m with
  | Returns a => k a
  | Panics => Panics
  end.

(** [s[lo:hi]]: Go panics unless [0 <= lo <= hi <= len(s)]. *)
Definition slice (s : string) (lo hi : nat) : outcome string :=
  if (lo <=? hi)%nat && (hi <=? length s)%nat
  then Returns (substring lo (hi - lo) s)
  else Panics.

(** [s[:hi]] *)
Definition slice_to (s : string) (hi : nat) : outcome string := slice s 0 hi.

(** [s[lo:]] *)
Definition slice_from (s : string) (lo : nat) : outcome string := slice s lo (length s).

(** A Go [error]: [None] is [nil], [Some msg] an error whose [Error()] is [msg]. *)
Definition error : Type := option string.

(** [sub] occurs in [s] (what the tests check with an unanchored pattern). *)
Definition Contains (s sub : string) : Prop :=
  exists pre post, s = pre ++ sub ++ post.

(* ================================================================= *)
(** ** Package snmp *)

Module snmp.

(** [char >= '0' && char <= '9'] *)
Definition isDigit (char : ascii) : bool :=
  (48 <=? nat_of_ascii char)%nat && (nat_of_ascii char <=? 57)%nat.

(** The [for _, char := range oid[1:]] loop of [IsOid], started with
    [lastChar]; [None] is a [return false] from inside the loop, [Some c] the
    value of [lastChar] when the loop ends.

    Go ranges over runes; the embedding ranges over bytes.  Both agree here:
    every byte of a multi-byte or invalid sequence is at least 0x80, the rune
    it starts is neither '.' nor a digit, and the loop returns false at the
    first such rune just as it does at the first such byte. *)
Fixpoint scan (lastChar : ascii) (s : string) : option ascii :=
  match s with
  | EmptyString => Some lastChar
  | String char rest =>
      if (char =? ".")%char then
        if (lastChar =? ".")%char then None else scan char rest
      else if negb (isDigit char) then None
      else scan char rest
  end.

Definition IsOid (oid : string) : bool :=
  match oid with
  | EmptyString => false
  | String c0 rest =>
      if negb (c0 =? ".")%char then false
      else if (length oid <? 2)%nat then false
      else
        match scan c0 rest with
        | None => false
        | Some lastChar => if (lastChar =? ".")%char then false else true
        end
  end.

(** IsOidPartOf tests if an OID is equal of below another OID *)
Definition IsOidPartOf (oid baseOid : string) : outcome bool :=
  if negb (IsOid oid) || negb (IsOid baseOid) then Returns false
  else
    let lenBase := length baseOid in
    and_then (slice_to oid lenBase) (fun head =>
      if head =? baseOid then
        if (length oid =? lenBase)%nat then Returns true
        else
          and_then (slice oid lenBase (lenBase + 1)) (fun next =>
            if next =? "." then Returns true else Returns false)
      else Returns false).

Definition GetSubOid (oid baseOid : string) : outcome string :=
  if negb (IsOid oid) then Returns ""
  else if negb (IsOid baseOid) then Returns ""
  else
    and_then (IsOidPartOf oid baseOid) (fun part =>
      if negb part then Returns ""
      else
        let l := length baseOid in
        slice_from oid (l + 1)).

(** gosnmp's protocol versions. *)
Inductive SnmpVersion : Type := Version1 | Version2c | Version3.

(** The fields of [gosnmp.GoSNMP] that the program sets. *)
Record GoSNMP : Type := mkGoSNMP {
  Target : string;
  Community : string;
  Timeout : Z;
  Retries : Z;
  Version : SnmpVersion
}.

Definition with_Version (client : GoSNMP) (v : SnmpVersion) : GoSNMP :=
  mkGoSNMP (Target client) (Community client) (Timeout client) (Retries client) v.

(** [SetVersion] mutates [*client] and returns an error: the embedding returns
    the client after the call together with the error. *)
Definition SetVersion (client : GoSNMP) (version : string) : GoSNMP * error :=
  if version =? "1" then
    (with_Version client Version1, None)
  else if (version =? "2") || (version =? "2c") then
    (with_Version client Version2c, None)
  else if version =? "3" then
    (with_Version client Version3, Some "SNMPv3 config not implemented")
  else
    (client, Some ("unknown SNMP version: " ++ version)).

(** The Path invariant in the words of the specification: non-empty, starts
    with the separator, no two consecutive separators, does not end with a
    separator, every non-separator character is a decimal digit. *)
Definition PathInvariant (s : string) : Prop :=
  s <> "" /\
  (exists t, s = String "." t) /\
  (forall a b, s <> a ++ ".." ++ b) /\
  (forall a, s <> a ++ ".") /\
  (forall a c b, s = a ++ String c b -> c <> "."%char -> isDigit c = true).

(** The sub-path relation in the words of the specification: both are paths,
    and child equals parent or begins with parent followed by a separator. *)
Definition SubPath (child parent : string) : Prop :=
  IsOid child = true /\ IsOid parent = true /\
  (child = parent \/ exists rest, child = parent ++ "." ++ rest).

End snmp.

(* ================================================================= *)
(** ** Formatting helpers ([fmt.Sprintf] verbs used by the program) *)

(** [%d] *)
Definition fmt_d (n : Z) : string := NilEmpty.string_of_int (Z.to_int n).

Fixpoint spaces (n : nat) : string :=
  match n with
  | O => ""
  | S m => String " " (spaces m)
  end.

(** [%-4s]: left-justified in a field of width 4. *)
Definition fmt_s_left4 (s : string) : string := s ++ spaces (4 - length s).

(** The line feed of the multi-line output. *)
Definition LF : string := String (ascii_of_nat 10) "".

(** The double quote inside a text. *)
Definition DQ : string := String (ascii_of_nat 34) "".

(** Each message on a line of its own. *)
Fixpoint unlines (messages : list string) : string :=
  match messages with
  | [] => ""
  | m :: rest => m ++ LF ++ unlines rest
  end.

(* ================================================================= *)
(** ** Package nagios *)

Module nagios.

(** The four states of a check; [rc] is the exit status the program hands to
    the operating system ([os.Exit(nagios.Unknown)] and [nagios.Exit(3, ...)]
    in [main] name the same state). *)
Inductive Severity : Type := OK | Warning | Critical | Unknown.

Definition rc (s : Severity) : Z :=
  match s with
  | OK => 0
  | Warning => 1
  | Critical => 2
  | Unknown => 3
  end%Z.

(** Modelled from the spec: the type [nagios.Overall] is used by [main]
    ([overall.Warnings], [overall.Criticals], [overall.Summary]) but declared
    in a file that is not at hand.  A counter per severity, the summary line
    set by the caller, and the ordered log of messages. *)
Record Overall : Type := mkOverall {
  OKs : nat;
  Warnings : nat;
  Criticals : nat;
  Unknowns : nat;
  Summary : string;
  Outputs : list string
}.

(** [nagios.Overall{}] *)
Definition empty : Overall := mkOverall 0 0 0 0 "" [].

(** Modelled from the spec: [Overall.Add] is not at hand.  "Appends message to
    an internal ordered log and increments the counter for that severity." *)
Definition Add (o : Overall) (state : Severity) (output : string) : Overall :=
  let log := (Outputs o ++ [output])%list in
  match state with
  | OK => mkOverall (S (OKs o)) (Warnings o) (Criticals o) (Unknowns o) (Summary o) log
  | Warning => mkOverall (OKs o) (S (Warnings o)) (Criticals o) (Unknowns o) (Summary o) log
  | Critical => mkOverall (OKs o) (Warnings o) (S (Criticals o)) (Unknowns o) (Summary o) log
  | Unknown => mkOverall (OKs o) (Warnings o) (Criticals o) (S (Unknowns o)) (Summary o) log
  end.

(** Number of records added so far. *)
Definition added (o : Overall) : nat := OKs o + Warnings o + Criticals o + Unknowns o.

(** Modelled from the spec: [Overall.GetStatus] is not at hand.  "Returns
    CRITICAL if any CRITICAL was added, else WARNING if any WARNING was added,
    else OK if at least one record was added, else UNKNOWN if nothing was ever
    added." *)
Definition GetStatus (o : Overall) : Severity :=
  if (0 <? Criticals o)%nat then Critical
  else if (0 <? Warnings o)%nat then Warning
  else if (0 <? added o)%nat then OK
  else Unknown.

(** [overall.Summary = summary] *)
Definition set_Summary (o : Overall) (summary : string) : Overall :=
  mkOverall (OKs o) (Warnings o) (Criticals o) (Unknowns o) summary (Outputs o).

(** Modelled from the spec: [Overall.GetOutput] is not at hand.  "A summary
    line (built by the caller from counts) followed by the ordered per-record
    messages, one per line." *)
Definition GetOutput (o : Overall) : string :=
  Summary o ++ LF ++ unlines (Outputs o).

(** A sequence of [Add] calls, first call first. *)
Definition AddAll (o : Overall) (calls : list (Severity * string)) : Overall :=
  fold_left (fun acc call => Add acc (fst call) (snd call)) calls o.

(** [true] when a call of that severity is in the sequence. *)
Definition is_sev (s : Severity) (call : Severity * string) : bool :=
  match s, fst call with
  | OK, OK | Warning, Warning | Critical, Critical | Unknown, Unknown => true
  | _, _ => false
  end.

(** How many calls of that severity are in the sequence. *)
Definition count_sev (s : Severity) (calls : list (Severity * string)) : nat :=
  List.length (filter (is_sev s) calls).

(** The result of [Overall()] as the specification words it, read off the
    sequence of calls. *)
Definition overall_of_calls (calls : list (Severity * string)) : Severity :=
  if existsb (is_sev Critical) calls then Critical
  else if existsb (is_sev Warning) calls then Warning
  else match calls with
       | _ :: _ => OK
       | [] => Unknown
       end.

End nagios.

(* ================================================================= *)
(** ** SNMP tables *)

(** Modelled from the spec: the table type behind [cntlrTable.Snmp] and
    [driveTable.Snmp] is not at hand.  "A mapping from Row Index to a mapping
    from Column name to raw value; insertion order by first-seen Row Index is
    preserved." *)
Record Table : Type := mkTable {
  Values : list (string * list (string * string))
}.

(** Modelled from the spec: [ListIds] is not at hand; the Row Indexes of the
    table in first-seen order. *)
Definition ListIds (t : Table) : list string := map fst (Values t).

(** A Go [(value, error)] pair of a call that fails or yields a value. *)
Inductive result (A : Type) : Type :=
| Ok (a : A)
| Err (e : string).
Arguments Ok {A} a.
Arguments Err {A} e.

(* ================================================================= *)
(** ** Package phy_drv *)

Module phy_drv.

Record CpqDaPhyDrvTable : Type := mkCpqDaPhyDrvTable { Snmp : Table }.

(** The fields the test constructs. *)
Record PhysicalDrive : Type := mkPhysicalDrive {
  Id : string;
  Model : string;
  FwRev : string;
  Serial : string;
  Status : string;
  Hours : Z
}.

Section Rules.

(** The static rule table, affected model to the firmware revision that
    fixes it (the test names one row: ["VO0480JFDGT"], ["HPD8"]), and the
    order on firmware revisions; both are data of the package that is not
    at hand. *)
Variable AffectedModels : string -> option string.
Variable at_or_above : string -> string -> bool.

(** What the output carries in front of the parenthesised drive id. *)
Variable label : string.

(** The descriptive message the test matches:
    [\(1\.1 \) model=\w+ serial=ABC123 firmware=HPD1 hours=1337]. *)
Definition description (d : PhysicalDrive) : string :=
  label ++ "(" ++ fmt_s_left4 (Id d) ++ ") model=" ++ Model d
        ++ " serial=" ++ Serial d ++ " firmware=" ++ FwRev d
        ++ " hours=" ++ fmt_d (Hours d).

(** Modelled from the spec: [PhysicalDrive.GetNagiosStatus] is not at hand,
    only its test is.  A device status other than "ok" is CRITICAL and is
    checked before the firmware rules; an affected model is OK with
    "firmware update applied" when its firmware is at or above the fix
    version and CRITICAL with "affected by FW bug" otherwise; any other
    drive is OK with the descriptive message. *)
Definition GetNagiosStatus (d : PhysicalDrive) : nagios.Severity * string :=
  if negb (Status d =? "ok") then
    (nagios.Critical, description d ++ " - status: " ++ Status d)
  else
    match AffectedModels (Model d) with
    | Some fixed =>
        if at_or_above (FwRev d) fixed then
          (nagios.OK, description d ++ " - firmware update applied")
        else
          (nagios.Critical, description d ++ " - affected by FW bug")
    | None => (nagios.OK, description d)
    end.

End Rules.

(** The constants of the test. *)
Definition affectedDrive : string := "VO0480JFDGT".
Definition affectedDriveFixed : string := "HPD8".

(** The row of the rule table that the test exercises. *)
Definition test_AffectedModels (model : string) : option string :=
  if model =? affectedDrive then Some affectedDriveFixed else None.

(** An order on the revisions of the test: byte-wise, so "HPD1" is below
    "HPD8". *)
Definition test_at_or_above (fw fixed : string) : bool := String.leb fixed fw.

(** The drive of the test. *)
Definition test_drive : PhysicalDrive :=
  mkPhysicalDrive "1.1" "OTHERDRIVE" "HPD1" "ABC123" "ok" 1337.

Definition with_Status (d : PhysicalDrive) (status : string) : PhysicalDrive :=
  mkPhysicalDrive (Id d) (Model d) (FwRev d) (Serial d) status (Hours d).
Definition with_Model (d : PhysicalDrive) (model : string) : PhysicalDrive :=
  mkPhysicalDrive (Id d) model (FwRev d) (Serial d) (Status d) (Hours d).
Definition with_FwRev (d : PhysicalDrive) (fw : string) : PhysicalDrive :=
  mkPhysicalDrive (Id d) (Model d) fw (Serial d) (Status d) (Hours d).

End phy_drv.

(* ================================================================= *)
(** ** Package cntlr *)

Module cntlr.

Record CpqDaCntlrTable : Type := mkCpqDaCntlrTable { Snmp : Table }.

End cntlr.

(* ================================================================= *)
(** ** Runs of the program *)

(** [client.ConnectIPv4()], [client.ConnectIPv6()], [client.Connect()] *)
Inductive ConnectKind : Type := ConnectIPv4 | ConnectIPv6 | ConnectDefault.

(** What a run does to the outside world and which records it evaluates, in
    the order it happens.  [EvControllerStatus] and [EvDriveStatus] mark the
    calls of [GetNagiosStatus]. *)
Inductive event (Controller : Type) : Type :=
| EvPrint (text : string)
| EvOpen (path : string)
| EvSeek
| EvLoadControllers
| EvLoadDrives
| EvConnect (kind : ConnectKind) (client : snmp.GoSNMP)
| EvWalkControllers
| EvWalkDrives
| EvExtractControllers
| EvExtractDrives
| EvControllerStatus (c : Controller)
| EvDriveStatus (d : phy_drv.PhysicalDrive).
Arguments EvPrint {Controller} text.
Arguments EvOpen {Controller} path.
Arguments EvSeek {Controller}.
Arguments EvLoadControllers {Controller}.
Arguments EvLoadDrives {Controller}.
Arguments EvConnect {Controller} kind client.
Arguments EvWalkControllers {Controller}.
Arguments EvWalkDrives {Controller}.
Arguments EvExtractControllers {Controller}.
Arguments EvExtractDrives {Controller}.
Arguments EvControllerStatus {Controller} c.
Arguments EvDriveStatus {Controller} d.

(** The event reads device data: a table is loaded or walked. *)
Definition retrieves_data {C : Type} (e : event C) : bool :=
  match e with
  | EvLoadControllers | EvLoadDrives | EvConnect _ _
  | EvWalkControllers | EvWalkDrives => true
  | _ => false
  end.

(** The event is the extraction of the records of a device class. *)
Definition is_extraction {C : Type} (e : event C) : bool :=
  match e with
  | EvExtractControllers | EvExtractDrives => true
  | _ => false
  end.

(** The event is the evaluation of one record. *)
Definition is_evaluation {C : Type} (e : event C) : bool :=
  match e with
  | EvControllerStatus _ | EvDriveStatus _ => true
  | _ => false
  end.

(** How the process ends. *)
Inductive halt : Type :=
| Exited (code : Z) (output : string)
| ExitedError (err : string)
| OsExited (code : Z).

Inductive step (A : Type) : Type :=
| Continue (a : A)
| Halt (h : halt).
Arguments Continue {A} a.
Arguments Halt {A} h.

(** A piece of [main]: the events it causes, and either a value with which
    the run goes on or the end of the process. *)
Definition Run (C A : Type) : Type := list (event C) * step A.

Definition ret {C A : Type} (a : A) : Run C A := ([], Continue a).

Definition bind {C A B : Type} (m : Run C A) (k : A -> Run C B) : Run C B :=
  match m with
  | (tr, Continue a) => let (tr', s) := k a in ((tr ++ tr')%list, s)
  | (tr, Halt h) => (tr, Halt h)
  end.

Definition emit {C : Type} (e : event C) : Run C unit := ([e], Continue tt).

Declare Scope run_scope.
Delimit Scope run_scope with run.
Notation "x <- m ;; k" := (bind m (fun x => k))
  (at level 100, m at next level, right associativity) : run_scope.
Notation "m ;;; k" := (bind m (fun _ => k))
  (at level 100, right associativity) : run_scope.

(** [os.Exit(code)] *)
Definition os_Exit {C A : Type} (code : Z) : Run C A := ([], Halt (OsExited code)).

(** Modelled from the spec: [nagios.Exit] is not at hand.  The caller
    "presents [the condition] as a terminal check failure": the text is
    printed and the process ends with the status; nothing after the call
    runs. *)
Definition nagios_Exit {C A : Type} (code : Z) (output : string) : Run C A :=
  ([], Halt (Exited code output)).

(** Modelled from the spec: [nagios.ExitError] is not at hand.  An error that
    reaches the caller is fatal: the process ends reporting it. *)
Definition nagios_ExitError {C A : Type} (err : string) : Run C A :=
  ([], Halt (ExitedError err)).

(** [if err != nil { nagios.ExitError(err) }] *)
Definition check_err {C : Type} (err : error) : Run C unit :=
  match err with
  | Some e => nagios_ExitError e
  | None => ret tt
  end.

(** [v, err := f(); if err != nil { nagios.ExitError(err) }] *)
Definition check_result {C A : Type} (r : result A) : Run C A :=
  match r with
  | Err e => nagios_ExitError e
  | Ok a => ret a
  end.

(** Every event of the piece satisfies [P]. *)
Definition only {C A : Type} (P : event C -> bool) (m : Run C A) : Prop :=
  forallb P (fst m) = true.

(** Neither an extraction nor an evaluation of records. *)
Definition before_records {C : Type} (e : event C) : bool :=
  negb (is_extraction e) && negb (is_evaluation e).

(** The command line after [flagSet.Parse]. *)
Record Flags : Type := mkFlags {
  hostname : string;
  community : string;
  protocol : string;
  timeout : Z;
  snmpwalk_file : string;
  ipv4 : bool;
  ipv6 : bool;
  show_version : bool;  (* the flag named version *)
  debug : bool
}.

(** [flagSet.Parse(os.Args[1:])]: an error (which may be [flag.ErrHelp]) or
    the flags. *)
Inductive ParseResult : Type :=
| ParseError (err : string) (isHelp : bool)
| Parsed (f : Flags).

(** The [if ipv4 ... else if ipv6 ... else ...] chain of the connect calls. *)
Definition connect_kind (f : Flags) : ConnectKind :=
  if ipv4 f then ConnectIPv4
  else if ipv6 f then ConnectIPv6
  else ConnectDefault.

(** An [int64], as [time.Duration] is. *)
Definition wrap64 (z : Z) : Z :=
  ((z + 2 ^ 63) mod 2 ^ 64 - 2 ^ 63)%Z.

(** [time.Duration] of the timeout flag times [time.Second] *)
Definition seconds (n : Z) : Z := wrap64 (n * 1000000000).

(* ================================================================= *)
(** ** main.go and version.go: the drive-only check *)

Module check_hp_disk_firmware.

Definition Project : string := "check_hp_disk_firmware".
Definition Version : string := "1.0.0".

Definition buildVersion (GitCommit : string) : string :=
  let version := Version in
  if negb (GitCommit =? "") then version ++ " - " ++ GitCommit
  else version.

Definition Readme : string :=
  "
Icinga / Nagios check plugin to verify SSD disks are not affected by the a00092491 bulletin from HPE.

HPE SAS Solid State Drives - Critical Firmware Upgrade Required for Certain HPE SAS Solid State Drive Models to
Prevent Drive Failure at 32,768 Hours of Operation

Please see support document from HPE: https://support.hpe.com/hpsc/doc/public/display?docId=emr_na-a00092491en_us
".

(** This program has no controllers. *)
Definition NoController : Type := Empty_set.

(** The collaborators of [main]: what the command line, the file system, the
    device and the packages that are not at hand answer in this run.
    Deferred [Close] calls are not part of the embedding.  [argv0] is
    [os.Args[0]] and [flag_defaults] the text that [flagSet.PrintDefaults]
    writes. *)
Record World : Type := mkWorld {
  args : ParseResult;
  argv0 : string;
  flag_defaults : string;
  GitCommit : string;
  gosnmp_Default : snmp.GoSNMP;
  os_Open : string -> error;
  LoadCpqDaPhyDrvTable : string -> result phy_drv.CpqDaPhyDrvTable;
  Connect : ConnectKind -> snmp.GoSNMP -> error;
  GetCpqDaPhyDrvTable : snmp.GoSNMP -> result phy_drv.CpqDaPhyDrvTable;
  GetPhysicalDrivesFromTable :
    phy_drv.CpqDaPhyDrvTable -> result (list phy_drv.PhysicalDrive);
  GetNagiosStatus : phy_drv.PhysicalDrive -> nagios.Severity * string
}.

Local Open Scope run_scope.

(** Lines 83-88: the client before [SetVersion]. *)
Definition make_client (w : World) (f : Flags) : snmp.GoSNMP :=
  let defaultClient := gosnmp_Default w in
  snmp.mkGoSNMP (hostname f) (community f) (seconds (timeout f)) 1
                (snmp.Version defaultClient).

(** Lines 43-50: the closure [flagSet.Usage]; the last text is what
    [flagSet.PrintDefaults] writes to the output of the flag set. *)
Definition Usage (w : World) : Run NoController unit :=
  emit (EvPrint ("Usage: " ++ argv0 w ++ " [-H <hostname>] [-c <community>]" ++ LF)) ;;;
  emit (EvPrint (Readme ++ LF)) ;;;
  emit (EvPrint ("Version: " ++ buildVersion (GitCommit w) ++ LF)) ;;;
  emit (EvPrint LF) ;;;
  emit (EvPrint ("Arguments:" ++ LF)) ;;;
  emit (EvPrint (flag_defaults w)).

(** Lines 26-110 of [main]: flags, then the drive table from the file or from
    the device.  For the help request [flagSet.Parse] runs [flagSet.Usage]
    before it returns [flag.ErrHelp]; for any other error it only returns
    it (the flag set continues on error). *)
Definition main_load (w : World) : Run NoController phy_drv.CpqDaPhyDrvTable :=
  match args w with
  | ParseError err isHelp =>
      (if isHelp then Usage w else ret tt) ;;;
      (if negb isHelp then nagios_ExitError err else ret tt) ;;;
      os_Exit 3
  | Parsed f =>
      (if show_version f then
         emit (EvPrint (Project ++ " version " ++ buildVersion (GitCommit w) ++ LF)) ;;;
         os_Exit (nagios.rc nagios.Unknown)
       else ret tt) ;;;
      loaded <-
        (if negb (snmpwalk_file f =? "") then
           emit (EvOpen (snmpwalk_file f)) ;;;
           check_err (os_Open w (snmpwalk_file f)) ;;;
           emit EvLoadDrives ;;;
           ret (LoadCpqDaPhyDrvTable w (snmpwalk_file f))
         else
           let client := make_client w f in
           let (client, err) := snmp.SetVersion client (protocol f) in
           check_err err ;;;
           emit (EvConnect (connect_kind f) client) ;;;
           check_err (Connect w (connect_kind f) client) ;;;
           emit EvWalkDrives ;;;
           ret (GetCpqDaPhyDrvTable w client)) ;;
      check_result loaded
  end.

(** The [for _, drive := range drives] loop. *)
Fixpoint range_drives (w : World) (drives : list phy_drv.PhysicalDrive)
    (overall : nagios.Overall) : Run NoController nagios.Overall :=
  match drives with
  | [] => ret overall
  | drive :: rest =>
      emit (EvDriveStatus drive) ;;;
      let (driveStatus, desc) := GetNagiosStatus w drive in
      range_drives w rest (nagios.Add overall driveStatus desc)
  end.

(** Lines 112-142 of [main]. *)
Definition main_check (w : World) (table : phy_drv.CpqDaPhyDrvTable)
    : Run NoController unit :=
  let ids := ListIds (phy_drv.Snmp table) in
  (if (List.length ids =? 0)%nat then nagios_Exit 3 "No HP drive data found!"
   else ret tt) ;;;
  emit EvExtractDrives ;;;
  drives <- check_result (GetPhysicalDrivesFromTable w table) ;;
  overall <- range_drives w drives nagios.empty ;;
  let status := nagios.GetStatus overall in
  let summary :=
    match status with
    | nagios.OK => "All drives seem fine"
    | nagios.Warning => "Found warnings for drives"
    | nagios.Critical => "Found critical problems on drives"
    | nagios.Unknown => ""
    end in
  let overall := nagios.set_Summary overall summary in
  nagios_Exit (nagios.rc status) (nagios.GetOutput overall).

Definition main (w : World) : Run NoController unit :=
  table <- main_load w ;;
  main_check w table.

(** A run against a device ([snmpwalk_file] empty) with the given protocol
    selector. *)
Definition live_flags (protocol : string) : Flags :=
  mkFlags "localhost" "public" protocol 15 "" false false false false.

(** A world in which every collaborator succeeds and the device answers with
    the table [t]. *)
Definition sample_world (f : Flags) (t : phy_drv.CpqDaPhyDrvTable) : World :=
  mkWorld
    (Parsed f) "check_hp_disk_firmware" "" ""
    (snmp.mkGoSNMP "" "public" (seconds 2) 3 snmp.Version2c)
    (fun _ => None)
    (fun _ => Ok t)
    (fun _ _ => None)
    (fun _ => Ok t)
    (fun t => Ok (map (fun _ => phy_drv.test_drive) (Values (phy_drv.Snmp t))))
    (phy_drv.GetNagiosStatus phy_drv.test_AffectedModels phy_drv.test_at_or_above
       "physical drive ").

End check_hp_disk_firmware.

(* ================================================================= *)
(** ** The controller-and-drive check (the later [main]) and its version file *)

Module check_hp_firmware.

Definition version : string := "1.2.0".

(** [commit] and [date] are set when the program is linked. *)
Definition buildVersion (commit date : string) : string :=
  let result := version in
  let result :=
    if negb (commit =? "") then result ++ LF ++ "commit: " ++ commit
    else result in
  let result :=
    if negb (date =? "") then result ++ LF ++ "date: " ++ date
    else result in
  result.

Definition Readme : string :=
  "
Icinga / Nagios check plugin to verify HPE controllers an SSD disks are not affected by certain vulnerabilities.

**HPE Controllers**

  HPE Smart Array SR Gen10 Controller Firmware Version 2.65 (or later) provided in the (HPE document a00097210) is
  required to prevent a potential data inconsistency on select RAID configurations with Smart Array Gen10 Firmware
  Version 1.98 through 2.62, based on the following scenarios. HPE strongly recommends performing this upgrade at the
  customer's earliest opportunity per the " ++ DQ ++ "Action Required" ++ DQ ++ " in the table located in the Resolution section.
  Neglecting to perform the recommended resolution could result in potential subsequent errors and potential data
  inconsistency.

The check will alert you with a CRITICAL when the firmware is in the affected range with:

* " ++ DQ ++ "if you have RAID 1/10/ADM - update immediately!" ++ DQ ++ "
* " ++ DQ ++ "if you have RAID 5/6/50/60 - update immediately!" ++ DQ ++ "

And it will add a short note when " ++ DQ ++ "firmware older than affected" ++ DQ ++ " or " ++ DQ ++ "firmware has been updated" ++ DQ ++ ". At the moment the
plugin does not verify configured logical drives, but we believe you should update in any case.

**HPE SSD SAS disks**

  HPE SAS Solid State Drives - Critical Firmware Upgrade Required for Certain HPE SAS Solid State Drive Models to
  Prevent Drive Failure at 32,768 or 40,000 Hours of Operation

The check will raise a CRITICAL when the drive needs to be updated with the note " ++ DQ ++ "affected by FW bug" ++ DQ ++ ", and when
the drive is patched with " ++ DQ ++ "firmware update applied" ++ DQ ++ ".

Please see support documents from HPE:
* https://support.hpe.com/hpesc/public/docDisplay?docLocale=en_US&docId=emr_na-a00092491en_us
* https://support.hpe.com/hpesc/public/docDisplay?docLocale=en_US&docId=a00097382en_us
* https://support.hpe.com/hpesc/public/docDisplay?docLocale=en_US&docId=a00097210en_us

**IMPORTANT:** Read the documentation for HPE! The plugin and its documentation is a best effort to find and detect
affected hardware. There is ABSOLUTELY NO WARRANTY, see the license!

**Note:** This plugin was initially named check_hp_disk_firmware
".

Section Main.

(** The controller record and its rules live in package cntlr, which is
    not at hand. *)
Variable Controller : Type.

(** The collaborators of [main]: what the command line, the file system,
    the device and the packages that are not at hand answer in this run.
    Deferred calls ([Close], [CatchPanic]) are not part of the embedding.
    [argv0] is [os.Args[0]] and [flag_defaults] the text that
    [flagSet.PrintDefaults] writes. *)
Record World : Type := mkWorld {
  args : ParseResult;
  argv0 : string;
  flag_defaults : string;
  Project : string;
  commit : string;
  date : string;
  os_Open : string -> error;
  LoadCpqDaCntlrTable : string -> result cntlr.CpqDaCntlrTable;
  Seek : error;
  LoadCpqDaPhyDrvTable : string -> result phy_drv.CpqDaPhyDrvTable;
  VersionFromString : string -> result snmp.SnmpVersion;
  Connect : ConnectKind -> snmp.GoSNMP -> error;
  GetCpqDaCntlrTable : snmp.GoSNMP -> result cntlr.CpqDaCntlrTable;
  GetCpqDaPhyDrvTable : snmp.GoSNMP -> result phy_drv.CpqDaPhyDrvTable;
  GetControllersFromTable : cntlr.CpqDaCntlrTable -> result (list Controller);
  GetPhysicalDrivesFromTable :
    phy_drv.CpqDaPhyDrvTable -> result (list phy_drv.PhysicalDrive);
  controller_GetNagiosStatus : Controller -> nagios.Severity * string;
  drive_GetNagiosStatus : phy_drv.PhysicalDrive -> nagios.Severity * string
}.

Local Open Scope run_scope.

(** Lines 319-326: the closure [flagSet.Usage]; the last text is what
    [flagSet.PrintDefaults] writes to the output of the flag set. *)
Definition Usage (w : World) : Run Controller unit :=
  emit (EvPrint ("Usage: " ++ argv0 w ++ " [-H <hostname>] [-c <community>]" ++ LF)) ;;;
  emit (EvPrint (Readme ++ LF)) ;;;
  emit (EvPrint ("Version: " ++ buildVersion (commit w) (date w) ++ LF)) ;;;
  emit (EvPrint LF) ;;;
  emit (EvPrint ("Arguments:" ++ LF)) ;;;
  emit (EvPrint (flag_defaults w)).

(** Lines 302-416 of [main]: flags, then both tables from the file or from
    the device.  For the help request [flagSet.Parse] runs [flagSet.Usage]
    before it returns [flag.ErrHelp]; for any other error it only returns
    it (the flag set continues on error). *)
Definition main_load (w : World)
    : Run Controller (cntlr.CpqDaCntlrTable * phy_drv.CpqDaPhyDrvTable) :=
  match args w with
  | ParseError err isHelp =>
      (if isHelp then Usage w else ret tt) ;;;
      (if isHelp then nagios_ExitError err else ret tt) ;;;
      os_Exit 3
  | Parsed f =>
      (if show_version f then
         emit (EvPrint (Project w ++ " version "
                          ++ buildVersion (commit w) (date w) ++ LF)) ;;;
         os_Exit (nagios.rc nagios.Unknown)
       else ret tt) ;;;
      if negb (snmpwalk_file f =? "") then
        emit (EvOpen (snmpwalk_file f)) ;;;
        check_err (os_Open w (snmpwalk_file f)) ;;;
        emit EvLoadControllers ;;;
        cntlrTable <- check_result (LoadCpqDaCntlrTable w (snmpwalk_file f)) ;;
        emit EvSeek ;;;
        check_err (Seek w) ;;;
        emit EvLoadDrives ;;;
        driveTable <- check_result (LoadCpqDaPhyDrvTable w (snmpwalk_file f)) ;;
        ret (cntlrTable, driveTable)
      else
        version <- check_result (VersionFromString w (protocol f)) ;;
        let client :=
          snmp.mkGoSNMP (hostname f) (community f) (seconds (timeout f)) 1
                        version in
        emit (EvConnect (connect_kind f) client) ;;;
        check_err (Connect w (connect_kind f) client) ;;;
        emit EvWalkControllers ;;;
        cntlrTable <- check_result (GetCpqDaCntlrTable w client) ;;
        emit EvWalkDrives ;;;
        driveTable <- check_result (GetCpqDaPhyDrvTable w client) ;;
        ret (cntlrTable, driveTable)
  end.

(** The [for _, controller := range controllers] loop; the counter is a Go
    [int], which a slice length cannot overflow. *)
Fixpoint range_controllers (w : World) (controllers : list Controller)
    (overall : nagios.Overall) (countControllers : Z)
    : Run Controller (nagios.Overall * Z) :=
  match controllers with
  | [] => ret (overall, countControllers)
  | controller :: rest =>
      emit (EvControllerStatus controller) ;;;
      let (controllerStatus, desc) := controller_GetNagiosStatus w controller in
      range_controllers w rest (nagios.Add overall controllerStatus desc)
                        (countControllers + 1)%Z
  end.

(** The [for _, drive := range drives] loop. *)
Fixpoint range_drives (w : World) (drives : list phy_drv.PhysicalDrive)
    (overall : nagios.Overall) (countDrives : Z)
    : Run Controller (nagios.Overall * Z) :=
  match drives with
  | [] => ret (overall, countDrives)
  | drive :: rest =>
      emit (EvDriveStatus drive) ;;;
      let (driveStatus, desc) := drive_GetNagiosStatus w drive in
      range_drives w rest (nagios.Add overall driveStatus desc)
                   (countDrives + 1)%Z
  end.

(** Lines 418-473 of [main]. *)
Definition main_check (w : World)
    (tables : cntlr.CpqDaCntlrTable * phy_drv.CpqDaPhyDrvTable)
    : Run Controller unit :=
  let (cntlrTable, driveTable) := tables in
  (if (List.length (Values (cntlr.Snmp cntlrTable)) =? 0)%nat
   then nagios_Exit 3 "No HP controller data found!"
   else ret tt) ;;;
  emit EvExtractControllers ;;;
  controllers <- check_result (GetControllersFromTable w cntlrTable) ;;
  (if (List.length (Values (phy_drv.Snmp driveTable)) =? 0)%nat
   then nagios_Exit 3 "No HP drive data found!"
   else ret tt) ;;;
  emit EvExtractDrives ;;;
  drives <- check_result (GetPhysicalDrivesFromTable w driveTable) ;;
  let overall := nagios.empty in
  st <- range_controllers w controllers overall 0 ;;
  let (overall, countControllers) := st in
  st <- range_drives w drives overall 0 ;;
  let (overall, countDrives) := st in
  let status := nagios.GetStatus overall in
  let summary :=
    match status with
    | nagios.OK =>
        "All " ++ fmt_d countControllers ++ " controllers and "
               ++ fmt_d countDrives ++ " drives seem fine"
    | nagios.Warning =>
        "Found " ++ fmt_d (Z.of_nat (nagios.Warnings overall)) ++ " warnings"
    | nagios.Critical =>
        "Found " ++ fmt_d (Z.of_nat (nagios.Criticals overall))
                 ++ " critical problems"
    | nagios.Unknown => ""
    end in
  let overall := nagios.set_Summary overall summary in
  nagios_Exit (nagios.rc status) (nagios.GetOutput overall).

Definition main (w : World) : Run Controller unit :=
  tables <- main_load w ;;
  main_check w tables.

(** The claim that an empty controller table does not stop the drives of
    the same run from being extracted and evaluated. *)
Definition drives_survive_empty_controllers (w : World) : Prop :=
  forall tr cntlrTable driveTable,
    main_load w = (tr, Continue (cntlrTable, driveTable)) ->
    Values (cntlr.Snmp cntlrTable) = [] ->
    Values (phy_drv.Snmp driveTable) <> [] ->
    In EvExtractDrives (fst (main w)) /\
    exists d, In (EvDriveStatus d) (fst (main w)).

End Main.

(** A run on a capture file with no controller rows and one drive row. *)
Definition one_drive_table : phy_drv.CpqDaPhyDrvTable :=
  phy_drv.mkCpqDaPhyDrvTable
    (mkTable [("1.1", [("model", "OTHERDRIVE"); ("firmware", "HPD1")])]).

Definition no_controller_table : cntlr.CpqDaCntlrTable :=
  cntlr.mkCpqDaCntlrTable (mkTable []).

Definition one_controller_table : cntlr.CpqDaCntlrTable :=
  cntlr.mkCpqDaCntlrTable (mkTable [("0", [("model", "P408i-a")])]).

Definition file_flags : Flags :=
  mkFlags "localhost" "public" "2c" 15 "walk.txt" false false false false.

(** A world for runs on a capture file; controllers are their model names. *)
Definition file_world (ct : cntlr.CpqDaCntlrTable) (dt : phy_drv.CpqDaPhyDrvTable)
    : World string :=
  mkWorld string
    (Parsed file_flags) "check_hp_firmware" "" "check_hp_firmware" "" ""
    (fun _ => None)
    (fun _ => Ok ct)
    None
    (fun _ => Ok dt)
    (fun _ => Ok snmp.Version2c)
    (fun _ _ => None)
    (fun _ => Ok ct)
    (fun _ => Ok dt)
    (fun t => Ok (map fst (Values (cntlr.Snmp t))))
    (fun t => Ok (map (fun _ => phy_drv.test_drive) (Values (phy_drv.Snmp t))))
    (fun c => (nagios.OK, "controller " ++ c))
    (phy_drv.GetNagiosStatus phy_drv.test_AffectedModels phy_drv.test_at_or_above
       "physical drive ").

End check_hp_firmware.

(* ================================================================= *)
(** ** Runs over any event type *)

Module trace.

(** As [Run], for a program with events of its own. *)
Definition Trace (E A : Type) : Type := list E * step A.

Definition ret {E A : Type} (a : A) : Trace E A := ([], Continue a).

Definition bind {E A B : Type} (m : Trace E A) (k : A -> Trace E B) : Trace E B :=
  match m with
  | (tr, Continue a) => let (tr', s) := k a in ((tr ++ tr')%list, s)
  | (tr, Halt h) => (tr, Halt h)
  end.

Definition emit {E : Type} (e : E) : Trace E unit := ([e], Continue tt).

Definition os_Exit {E A : Type} (code : Z) : Trace E A := ([], Halt (OsExited code)).

(** Modelled from the spec: [nagios.Exit], as [nagios_Exit] above. *)
Definition nagios_Exit {E A : Type} (code : Z) (output : string) : Trace E A :=
  ([], Halt (Exited code output)).

(** Modelled from the spec: [nagios.ExitError], as [nagios_ExitError] above. *)
Definition nagios_ExitError {E A : Type} (err : string) : Trace E A :=
  ([], Halt (ExitedError err)).

Definition check_err {E : Type} (err : error) : Trace E unit :=
  match err with
  | Some e => nagios_ExitError e
  | None => ret tt
  end.

Definition check_result {E A : Type} (r : result A) : Trace E A :=
  match r with
  | Err e => nagios_ExitError e
  | Ok a => ret a
  end.

(** Every event of the piece satisfies [P]. *)
Definition only {E A : Type} (P : E -> bool) (m : Trace E A) : Prop :=
  forallb P (fst m) = true.

End trace.

Declare Scope trace_scope.
Delimit Scope trace_scope with trace.
Notation "x <- m ;; k" := (trace.bind m (fun x => k))
  (at level 100, m at next level, right associativity) : trace_scope.
Notation "m ;;; k" := (trace.bind m (fun _ => k))
  (at level 100, right associativity) : trace_scope.

(** The event connects to a device or walks one of its tables. *)
Definition uses_network {C : Type} (e : event C) : bool :=
  match e with
  | EvConnect _ _ | EvWalkControllers | EvWalkDrives => true
  | _ => false
  end.

(** The event opens, reads or rewinds the capture file. *)
Definition reads_file {C : Type} (e : event C) : bool :=
  match e with
  | EvOpen _ | EvSeek | EvLoadControllers | EvLoadDrives => true
  | _ => false
  end.

(** The world of main.go with another command line. *)
Definition disk_set_args (w : check_hp_disk_firmware.World) (a : ParseResult)
    : check_hp_disk_firmware.World :=
  check_hp_disk_firmware.mkWorld a
    (check_hp_disk_firmware.argv0 w)
    (check_hp_disk_firmware.flag_defaults w)
    (check_hp_disk_firmware.GitCommit w)
    (check_hp_disk_firmware.gosnmp_Default w)
    (check_hp_disk_firmware.os_Open w)
    (check_hp_disk_firmware.LoadCpqDaPhyDrvTable w)
    (check_hp_disk_firmware.Connect w)
    (check_hp_disk_firmware.GetCpqDaPhyDrvTable w)
    (check_hp_disk_firmware.GetPhysicalDrivesFromTable w)
    (check_hp_disk_firmware.GetNagiosStatus w).

(** A run on a capture file. *)
Definition disk_file_flags : Flags :=
  mkFlags "localhost" "public" "2c" 15 "walk.txt" false false false false.

(* ================================================================= *)
(** ** The check with the iLO version (the first [main] of the later
       program) *)

Module check_hp_firmware_ilo.

(** [gosnmp.Handler]: the handler that reads a capture file, or the one that
    talks to a device with the settings made by [main]. *)
Inductive Handler : Type :=
| FileHandler (path : string)
| SnmpHandler (client : snmp.GoSNMP).

Definition Readme : string :=
  "
Icinga / Nagios check plugin to verify HPE controllers an SSD disks or ilo are not affected by certain vulnerabilities.

**HPE Controllers**

  HPE Smart Array SR Gen10 Controller Firmware Version 2.65 (or later) provided in the (HPE document a00097210) is
  required to prevent a potential data inconsistency on select RAID configurations with Smart Array Gen10 Firmware
  Version 1.98 through 2.62, based on the following scenarios. HPE strongly recommends performing this upgrade at the
  customer's earliest opportunity per the " ++ DQ ++ "Action Required" ++ DQ ++ " in the table located in the Resolution section.
  Neglecting to perform the recommended resolution could result in potential subsequent errors and potential data
  inconsistency.

The check will alert you with a CRITICAL when the firmware is in the affected range with:

* " ++ DQ ++ "if you have RAID 1/10/ADM - update immediately!" ++ DQ ++ "
* " ++ DQ ++ "if you have RAID 5/6/50/60 - update immediately!" ++ DQ ++ "

And it will add a short note when " ++ DQ ++ "firmware older than affected" ++ DQ ++ " or " ++ DQ ++ "firmware has been updated" ++ DQ ++ ". At the moment the
plugin does not verify configured logical drives, but we believe you should update in any case.

**HPE SSD SAS disks**

  HPE SAS Solid State Drives - Critical Firmware Upgrade Required for Certain HPE SAS Solid State Drive Models to
  Prevent Drive Failure at 32,768 or 40,000 Hours of Operation

The check will raise a CRITICAL when the drive needs to be updated with the note " ++ DQ ++ "affected by FW bug" ++ DQ ++ ", and when
the drive is patched with " ++ DQ ++ "firmware update applied" ++ DQ ++ ".

**HPE Integrated Lights-Out**
  Multiple security vulnerabilities have been identified in Integrated Lights-Out 3 (iLO 3),
  Integrated Lights-Out 4 (iLO 4), and Integrated Lights-Out 5 (iLO 5) firmware. The vulnerabilities could be remotely
  exploited to execute code, cause denial of service, and expose sensitive information. HPE has released updated
  firmware to mitigate these vulnerabilities.

  The check will raise a CRITICAL when the Integrated Lights-Out needs to be updated. Below you will find a list with
  the least version of each Integrated Lights-Out version:
   - HPE Integrated Lights-Out 3 (iLO 3) firmware v1.93 or later.
   - HPE Integrated Lights-Out 4 (iLO 4) firmware v2.75 or later
   - HPE Integrated Lights-Out 5 (iLO 5) firmware v2.18 or later.


Please see support documents from HPE:
* https://support.hpe.com/hpesc/public/docDisplay?docLocale=en_US&docId=emr_na-a00092491en_us
* https://support.hpe.com/hpesc/public/docDisplay?docLocale=en_US&docId=a00097382en_us
* https://support.hpe.com/hpesc/public/docDisplay?docLocale=en_US&docId=a00097210en_us
* https://support.hpe.com/hpesc/public/docDisplay?docId=hpesbhf04012en_us

**IMPORTANT:** Read the documentation for HPE! The plugin and its documentation is a best effort to find and detect
affected hardware. There is ABSOLUTELY NO WARRANTY, see the license!

**Note:** This plugin was initially named check_hp_disk_firmware
".

Section Main.

(** The controller and iLO records and their rules live in packages cntlr
    and ilo, which are not at hand. *)
Variable Controller : Type.
Variable Ilo : Type.

(** What a run does to the outside world and which records it evaluates;
    [EvIloStatus], [EvControllerStatus] and [EvDriveStatus] mark the calls
    of [GetNagiosStatus]. *)
Inductive event : Type :=
| EvPrint (text : string)
| EvNewFileHandler (path : string)
| EvConnect (kind : ConnectKind) (client : Handler)
| EvWalkControllers
| EvWalkDrives
| EvExtractControllers
| EvExtractDrives
| EvIloInformation
| EvIloStatus (i : Ilo)
| EvControllerStatus (c : Controller)
| EvDriveStatus (d : phy_drv.PhysicalDrive).

(** The event concerns the iLO. *)
Definition is_ilo (e : event) : bool :=
  match e with
  | EvIloInformation | EvIloStatus _ => true
  | _ => false
  end.

(** The event is a call of [GetNagiosStatus]. *)
Definition is_status (e : event) : bool :=
  match e with
  | EvIloStatus _ | EvControllerStatus _ | EvDriveStatus _ => true
  | _ => false
  end.

(** The collaborators of [main]; [ignoreIlo] is the flag
    ignore-ilo-version after parsing, [argv0] is [os.Args[0]] and
    [flag_defaults] the text that [flagSet.PrintDefaults] writes.  Deferred
    calls ([Close], [CatchPanic]) are not part of the embedding. *)
Record World : Type := mkWorld {
  args : ParseResult;
  argv0 : string;
  flag_defaults : string;
  ignoreIlo : bool;
  commit : string;
  date : string;
  NewFileHandlerFromFile : string -> error;
  VersionFromString : string -> result snmp.SnmpVersion;
  Connect : ConnectKind -> Handler -> error;
  GetCpqDaCntlrTable : Handler -> result cntlr.CpqDaCntlrTable;
  GetCpqDaPhyDrvTable : Handler -> result phy_drv.CpqDaPhyDrvTable;
  GetControllersFromTable : cntlr.CpqDaCntlrTable -> result (list Controller);
  GetPhysicalDrivesFromTable :
    phy_drv.CpqDaPhyDrvTable -> result (list phy_drv.PhysicalDrive);
  GetIloInformation : Handler -> result Ilo;
  ilo_GetNagiosStatus : Ilo -> nagios.Severity * string;
  controller_GetNagiosStatus : Controller -> nagios.Severity * string;
  drive_GetNagiosStatus : phy_drv.PhysicalDrive -> nagios.Severity * string
}.

Local Open Scope trace_scope.

(** Lines 129-147 of [main]: the handler for the file or for the device. *)
Definition main_client (w : World) (f : Flags) : trace.Trace event Handler :=
  if negb (snmpwalk_file f =? "") then
    trace.emit (EvNewFileHandler (snmpwalk_file f)) ;;;
    trace.check_err (NewFileHandlerFromFile w (snmpwalk_file f)) ;;;
    trace.ret (FileHandler (snmpwalk_file f))
  else
    version <- trace.check_result (VersionFromString w (protocol f)) ;;
    trace.ret (SnmpHandler
                 (snmp.mkGoSNMP (hostname f) (community f) (seconds (timeout f)) 1
                                version)).

(** Lines 94-101: the closure [flagSet.Usage]; the last text is what
    [flagSet.PrintDefaults] writes to the output of the flag set. *)
Definition Usage (w : World) : trace.Trace event unit :=
  trace.emit (EvPrint ("Usage: " ++ argv0 w ++ " [-H <hostname>] [-c <community>]"
                         ++ LF)) ;;;
  trace.emit (EvPrint (Readme ++ LF)) ;;;
  trace.emit (EvPrint ("Version: "
                         ++ check_hp_firmware.buildVersion (commit w) (date w)
                         ++ LF)) ;;;
  trace.emit (EvPrint LF) ;;;
  trace.emit (EvPrint ("Arguments:" ++ LF)) ;;;
  trace.emit (EvPrint (flag_defaults w)).

(** Lines 73-176 of [main]: flags, the handler, the connection and both
    tables.  For the help request [flagSet.Parse] runs [flagSet.Usage]
    before it returns [flag.ErrHelp]; for any other error it only returns
    it (the flag set continues on error). *)
Definition main_load (w : World)
    : trace.Trace event (Handler * cntlr.CpqDaCntlrTable * phy_drv.CpqDaPhyDrvTable) :=
  match args w with
  | ParseError err isHelp =>
      (if isHelp then Usage w else trace.ret tt) ;;;
      (if isHelp then trace.nagios_ExitError err else trace.ret tt) ;;;
      trace.os_Exit 3
  | Parsed f =>
      (if show_version f then
         trace.emit (EvPrint ("check_hp_firmware" ++ " version "
                                ++ check_hp_firmware.buildVersion (commit w) (date w)
                                ++ LF)) ;;;
         trace.os_Exit (nagios.rc nagios.Unknown)
       else trace.ret tt) ;;;
      client <- main_client w f ;;
      trace.emit (EvConnect (connect_kind f) client) ;;;
      trace.check_err (Connect w (connect_kind f) client) ;;;
      trace.emit EvWalkControllers ;;;
      cntlrTable <- trace.check_result (GetCpqDaCntlrTable w client) ;;
      trace.emit EvWalkDrives ;;;
      driveTable <- trace.check_result (GetCpqDaPhyDrvTable w client) ;;
      trace.ret (client, cntlrTable, driveTable)
  end.

(** Lines 198-206 of [main]: the iLO check, unless the flag is set. *)
Definition check_ilo (w : World) (client : Handler) (overall : nagios.Overall)
    : trace.Trace event nagios.Overall :=
  if negb (ignoreIlo w) then
    trace.emit EvIloInformation ;;;
    iloData <- trace.check_result (GetIloInformation w client) ;;
    trace.emit (EvIloStatus iloData) ;;;
    let (iloStatus, desc) := ilo_GetNagiosStatus w iloData in
    trace.ret (nagios.Add overall iloStatus desc)
  else trace.ret overall.

(** The [for _, controller := range controllers] loop. *)
Fixpoint range_controllers (w : World) (controllers : list Controller)
    (overall : nagios.Overall) (countControllers : Z)
    : trace.Trace event (nagios.Overall * Z) :=
  match controllers with
  | [] => trace.ret (overall, countControllers)
  | controller :: rest =>
      trace.emit (EvControllerStatus controller) ;;;
      let (controllerStatus, desc) := controller_GetNagiosStatus w controller in
      range_controllers w rest (nagios.Add overall controllerStatus desc)
                        (countControllers + 1)%Z
  end.

(** The [for _, drive := range drives] loop. *)
Fixpoint range_drives (w : World) (drives : list phy_drv.PhysicalDrive)
    (overall : nagios.Overall) (countDrives : Z)
    : trace.Trace event (nagios.Overall * Z) :=
  match drives with
  | [] => trace.ret (overall, countDrives)
  | drive :: rest =>
      trace.emit (EvDriveStatus drive) ;;;
      let (driveStatus, desc) := drive_GetNagiosStatus w drive in
      range_drives w rest (nagios.Add overall driveStatus desc)
                   (countDrives + 1)%Z
  end.

(** Lines 178-243 of [main]. *)
Definition main_check (w : World)
    (loaded : Handler * cntlr.CpqDaCntlrTable * phy_drv.CpqDaPhyDrvTable)
    : trace.Trace event unit :=
  let '(client, cntlrTable, driveTable) := loaded in
  (if (List.length (Values (cntlr.Snmp cntlrTable)) =? 0)%nat
   then trace.nagios_Exit 3 "No HP controller data found!"
   else trace.ret tt) ;;;
  trace.emit EvExtractControllers ;;;
  controllers <- trace.check_result (GetControllersFromTable w cntlrTable) ;;
  (if (List.length (Values (phy_drv.Snmp driveTable)) =? 0)%nat
   then trace.nagios_Exit 3 "No HP drive data found!"
   else trace.ret tt) ;;;
  trace.emit EvExtractDrives ;;;
  drives <- trace.check_result (GetPhysicalDrivesFromTable w driveTable) ;;
  let overall := nagios.empty in
  overall <- check_ilo w client overall ;;
  st <- range_controllers w controllers overall 0 ;;
  let (overall, countControllers) := st in
  st <- range_drives w drives overall 0 ;;
  let (overall, countDrives) := st in
  let status := nagios.GetStatus overall in
  let summary :=
    match status with
    | nagios.OK =>
        "All " ++ fmt_d countControllers ++ " controllers and "
               ++ fmt_d countDrives ++ " drives seem fine"
    | nagios.Warning =>
        "Found " ++ fmt_d (Z.of_nat (nagios.Warnings overall)) ++ " warnings"
    | nagios.Critical =>
        "Found " ++ fmt_d (Z.of_nat (nagios.Criticals overall))
                 ++ " critical problems"
    | nagios.Unknown => ""
    end in
  let overall := nagios.set_Summary overall summary in
  trace.nagios_Exit (nagios.rc status) (nagios.GetOutput overall).

Definition main (w : World) : trace.Trace event unit :=
  loaded <- main_load w ;;
  main_check w loaded.

End Main.

Arguments EvPrint {Controller Ilo} text.
Arguments EvNewFileHandler {Controller Ilo} path.
Arguments EvConnect {Controller Ilo} kind client.
Arguments EvWalkControllers {Controller Ilo}.
Arguments EvWalkDrives {Controller Ilo}.
Arguments EvExtractControllers {Controller Ilo}.
Arguments EvExtractDrives {Controller Ilo}.
Arguments EvIloInformation {Controller Ilo}.
Arguments EvIloStatus {Controller Ilo} i.
Arguments EvControllerStatus {Controller Ilo} c.
Arguments EvDriveStatus {Controller Ilo} d.
Arguments is_ilo {Controller Ilo} e.
Arguments is_status {Controller Ilo} e.

(** A world for runs on a capture file; controllers are their model names
    and the iLO its firmware version, which the sample rule accepts from
    "2.18" on (byte-wise). *)
Definition file_world (ignore : bool) (ct : cntlr.CpqDaCntlrTable)
    (dt : phy_drv.CpqDaPhyDrvTable) (ilo : result string) : World string string :=
  mkWorld string string
    (Parsed check_hp_firmware.file_flags) "check_hp_firmware" "" ignore "" ""
    (fun _ => None)
    (fun _ => Ok snmp.Version2c)
    (fun _ _ => None)
    (fun _ => Ok ct)
    (fun _ => Ok dt)
    (fun t => Ok (map fst (Values (cntlr.Snmp t))))
    (fun t => Ok (map (fun _ => phy_drv.test_drive) (Values (phy_drv.Snmp t))))
    (fun _ => ilo)
    (fun v => if String.leb "2.18" v then (nagios.OK, "ilo " ++ v)
              else (nagios.Critical, "ilo " ++ v))
    (fun c => (nagios.OK, "controller " ++ c))
    (phy_drv.GetNagiosStatus phy_drv.test_AffectedModels phy_drv.test_at_or_above
       "physical drive ").

End check_hp_firmware_ilo.

(** A capture file whose drive rows the extractor cannot read. *)
Definition unreadable_drives_world : check_hp_firmware.World string :=
  check_hp_firmware.mkWorld string
    (Parsed check_hp_firmware.file_flags) "check_hp_firmware" ""
    "check_hp_firmware" "" ""
    (fun _ => None)
    (fun _ => Ok check_hp_firmware.one_controller_table)
    None
    (fun _ => Ok check_hp_firmware.one_drive_table)
    (fun _ => Ok snmp.Version2c)
    (fun _ _ => None)
    (fun _ => Ok check_hp_firmware.one_controller_table)
    (fun _ => Ok check_hp_firmware.one_drive_table)
    (fun _ => Ok ["0"])
    (fun _ => Err "unexpected value")
    (fun c => (nagios.OK, c))
    (fun d => (nagios.OK, phy_drv.Id d)).

(** A capture file with one controller row that the extractor cannot read
    and no drive row. *)
Definition unreadable_controllers_world : check_hp_firmware.World string :=
  check_hp_firmware.mkWorld string
    (Parsed check_hp_firmware.file_flags) "check_hp_firmware" ""
    "check_hp_firmware" "" ""
    (fun _ => None)
    (fun _ => Ok check_hp_firmware.one_controller_table)
    None
    (fun _ => Ok (phy_drv.mkCpqDaPhyDrvTable (mkTable [])))
    (fun _ => Ok snmp.Version2c)
    (fun _ _ => None)
    (fun _ => Ok check_hp_firmware.one_controller_table)
    (fun _ => Ok (phy_drv.mkCpqDaPhyDrvTable (mkTable [])))
    (fun _ => Err "could not parse controller")
    (fun _ => Ok [])
    (fun c => (nagios.OK, c))
    (fun d => (nagios.OK, phy_drv.Id d)).

(** The claim that a run of the later [main] which reaches the table checks
    with a mandatory table without values always ends with exit code 3 and
    one of the two "No HP ... data found!" messages. *)
Definition empty_table_means_no_data_found (C : Type) (w : check_hp_firmware.World C)
    : Prop :=
  forall tr cntlrTable driveTable,
    check_hp_firmware.main_load C w = (tr, Continue (cntlrTable, driveTable)) ->
    Values (cntlr.Snmp cntlrTable) = [] \/ Values (phy_drv.Snmp driveTable) = [] ->
    snd (check_hp_firmware.main C w)
    = Halt (Exited (nagios.rc nagios.Unknown) "No HP controller data found!") \/
    snd (check_hp_firmware.main C w)
    = Halt (Exited (nagios.rc nagios.Unknown) "No HP drive data found!").

(* ================================================================= *)
(** * Properties *)

(** ** Strings and slices *)

Lemma append_assoc (a b c : string) : (a ++ b) ++ c = a ++ b ++ c.
Proof.
  induction a as [|x a IH]; simpl; [reflexivity | now rewrite IH].
Qed.

Lemma append_empty_r (a : string) : a ++ "" = a.
Proof.
  induction a as [|x a IH]; simpl; [reflexivity | now rewrite IH].
Qed.

Lemma length_append (a b : string) : length (a ++ b) = length a + length b.
Proof.
  induction a as [|x a IH]; simpl; [reflexivity | now rewrite IH].
Qed.

Lemma substring_all (s : string) : substring 0 (length s) s = s.
Proof.
  induction s as [|x s IH]; simpl; [reflexivity | now rewrite IH].
Qed.

Lemma substring_head (a b : string) : substring 0 (length a) (a ++ b) = a.
Proof.
  induction a as [|x a IH]; simpl.
  - destruct b; reflexivity.
  - now rewrite IH.
Qed.

Lemma substring_skip (a b : string) (m : nat) :
  substring (length a) m (a ++ b) = substring 0 m b.
Proof.
  induction a as [|x a IH]; simpl; [reflexivity | exact IH].
Qed.

(** A string splits at any position within it. *)
Lemma split_at (s : string) (n : nat) :
  n <= length s ->
  exists rest, s = substring 0 n s ++ rest /\ length (substring 0 n s) = n.
Proof.
  revert n; induction s as [|x s IH]; intros n Hn; simpl in *.
  - assert (n = 0) by lia; subst. exists ""; split; reflexivity.
  - destruct n as [|n].
    + exists (String x s); split; reflexivity.
    + destruct (IH n) as [rest [E L]]; [lia|].
      exists rest; simpl; split; [now rewrite <- E | now rewrite L].
Qed.

Lemma contains_suffix (a b sub : string) : Contains b sub -> Contains (a ++ b) sub.
Proof.
  intros [pre [post E]]. exists (a ++ pre), post.
  now rewrite E, append_assoc.
Qed.

Lemma contains_here (a sub post : string) : Contains (a ++ sub ++ post) sub.
Proof. exists a, post; reflexivity. Qed.

(** ** IsOid *)

Lemma ascii_eqb_dot (c : ascii) : (c =? ".")%char = true <-> c = "."%char.
Proof. apply Ascii.eqb_eq. Qed.

Lemma isDigit_not_dot (c : ascii) : snmp.isDigit c = true -> c <> "."%char.
Proof. intros H E; subst; discriminate. Qed.

(** What one iteration of the loop lets through. *)
Lemma scan_cons (c d l : ascii) (t : string) :
  snmp.scan c (String d t) = Some l ->
  snmp.scan d t = Some l /\
  ((d = "."%char /\ c <> "."%char) \/ (d <> "."%char /\ snmp.isDigit d = true)).
Proof.
  simpl. destruct (Ascii.eqb_spec d ".") as [Ed|Ed].
  - destruct (Ascii.eqb_spec c ".") as [Ec|Ec]; [discriminate|].
    intros H; split; [exact H | left; split; assumption].
  - destruct (snmp.isDigit d) eqn:Dd; simpl; [|discriminate].
    intros H; split; [exact H | right; split; [assumption | reflexivity]].
Qed.

Lemma scan_no_double (s : string) : forall c l,
  snmp.scan c s = Some l -> forall a b, String c s <> a ++ ".." ++ b.
Proof.
  induction s as [|d t IH]; intros c l H a b E.
  - apply (f_equal length) in E. rewrite length_append in E. simpl in E. lia.
  - apply scan_cons in H. destruct H as [Ht Hd].
    destruct a as [|x a]; simpl in E.
    + injection E as Ec Ed _. subst.
      destruct Hd as [[_ Hc]|[Hd _]]; [apply Hc | apply Hd]; reflexivity.
    + injection E as _ E. exact (IH d l Ht a b E).
Qed.

Lemma scan_last (s : string) : forall c l,
  snmp.scan c s = Some l -> forall a, String c s = a ++ "." -> l = "."%char.
Proof.
  induction s as [|d t IH]; intros c l H a E.
  - simpl in H. injection H as <-.
    destruct a as [|x a]; simpl in E.
    + now injection E.
    + injection E as _ E. destruct a; discriminate.
  - apply scan_cons in H. destruct H as [Ht _].
    destruct a as [|x a]; simpl in E; [discriminate|].
    injection E as _ E. exact (IH d l Ht a E).
Qed.

Lemma scan_digits (s : string) : forall c l,
  snmp.scan c s = Some l ->
  forall a x b, s = a ++ String x b -> x <> "."%char -> snmp.isDigit x = true.
Proof.
  induction s as [|d t IH]; intros c l H a x b E Hx.
  - destruct a; discriminate.
  - apply scan_cons in H. destruct H as [Ht Hd].
    destruct a as [|y a]; simpl in E.
    + injection E as -> _. destruct Hd as [[Hd _]|[_ Hd]]; [contradiction | exact Hd].
    + injection E as _ E. exact (IH d l Ht a x b E Hx).
Qed.

(** The loop runs to its end on a string that keeps the invariant, and a
    final separator shows in [lastChar]. *)
Lemma scan_complete (s : string) : forall c,
  (forall a b, String c s <> a ++ ".." ++ b) ->
  (forall a x b, s = a ++ String x b -> x <> "."%char -> snmp.isDigit x = true) ->
  exists l, snmp.scan c s = Some l /\
            (l = "."%char -> exists a, String c s = a ++ ".").
Proof.
  induction s as [|d t IH]; intros c Hdd Hdig.
  - exists c; split; [reflexivity|]. intros ->. exists ""; reflexivity.
  - assert (Hdd' : forall a b, String d t <> a ++ ".." ++ b).
    { intros a b E. apply (Hdd (String c a) b). simpl. now rewrite E. }
    assert (Hdig' : forall a x b, t = a ++ String x b -> x <> "."%char ->
                                  snmp.isDigit x = true).
    { intros a x b E. apply (Hdig (String d a) x b). simpl. now rewrite E. }
    destruct (IH d Hdd' Hdig') as [l [Hl Hend]].
    assert (Hstep : snmp.scan c (String d t) = snmp.scan d t).
    { simpl. destruct (Ascii.eqb_spec d ".") as [Ed|Ed].
      - destruct (Ascii.eqb_spec c ".") as [Ec|Ec]; [|reflexivity].
        exfalso. subst. apply (Hdd "" t). reflexivity.
      - rewrite (Hdig "" d t eq_refl Ed). reflexivity. }
    exists l; split; [now rewrite Hstep|].
    intros El. destruct (Hend El) as [a Ea]. exists (String c a). simpl. now rewrite Ea.
Qed.

Lemma IsOid_PathInvariant (s : string) : snmp.IsOid s = true <-> snmp.PathInvariant s.
Proof.
  unfold snmp.IsOid, snmp.PathInvariant. split.
  - destruct s as [|c0 rest]; [discriminate|].
    destruct (Ascii.eqb_spec c0 ".") as [E0|E0]; simpl negb; cbv iota; [|discriminate].
    subst c0.
    destruct (length (String "." rest) <? 2)%nat; [discriminate|].
    destruct (snmp.scan "." rest) as [l|] eqn:Hscan; [|discriminate].
    destruct (Ascii.eqb_spec l ".") as [El|El]; [discriminate|]. intros _.
    split; [discriminate|].
    split; [exists rest; reflexivity|].
    split; [exact (scan_no_double rest "." l Hscan)|].
    split.
    + intros a E. apply El. exact (scan_last rest "." l Hscan a E).
    + intros a c b E Hc. destruct a as [|y a]; simpl in E.
      * injection E as <- _. contradiction Hc; reflexivity.
      * injection E as _ E. exact (scan_digits rest "." l Hscan a c b E Hc).
  - intros [Hne [[t Et] [Hdd [Hend Hdig]]]]. subst s.
    rewrite Ascii.eqb_refl. simpl negb. cbv iota.
    destruct t as [|d t]; [exfalso; apply (Hend ""); reflexivity|].
    replace (length (String "." (String d t)) <? 2)%nat with false by reflexivity.
    destruct (scan_complete (String d t) "." Hdd) as [l [Hl Hl']].
    { intros a x b E. apply (Hdig (String "." a) x b). simpl. now rewrite E. }
    rewrite Hl. destruct (Ascii.eqb_spec l ".") as [El|El]; [|reflexivity].
    exfalso. destruct (Hl' El) as [a Ea]. exact (Hend a Ea).
Qed.

Lemma IsOid_length (s : string) : snmp.IsOid s = true -> 2 <= length s.
Proof.
  unfold snmp.IsOid. destruct s as [|c0 rest]; [discriminate|].
  destruct (negb (c0 =? ".")%char); [discriminate|].
  destruct (length (String c0 rest) <? 2)%nat eqn:L; [discriminate|].
  intros _. apply Nat.ltb_ge in L. exact L.
Qed.

(** C4: [IsOid] is true exactly on the strings that keep the Path invariant
    (non-empty, leading separator, no two consecutive separators, no trailing
    separator, every other character a decimal digit); it is false on the
    empty string and on every string shorter than two characters; and it
    answers the four examples of the specification as stated. *)
Theorem IsOid_decides_path_invariant :
  (forall s, snmp.IsOid s = true <-> snmp.PathInvariant s) /\
  snmp.IsOid "" = false /\
  (forall s, snmp.IsOid s = true -> 2 <= length s) /\
  (forall c, snmp.IsOid (String c "") = false) /\
  snmp.IsOid ".1.1" = true /\
  snmp.IsOid "1.1" = false /\
  snmp.IsOid ".1..1" = false /\
  snmp.IsOid ".1.1." = false.
Proof.
  split; [exact IsOid_PathInvariant|].
  split; [reflexivity|].
  split; [exact IsOid_length|].
  split.
  - intros c. destruct (snmp.IsOid (String c "")) eqn:E; [|reflexivity].
    apply IsOid_length in E. simpl in E. lia.
  - repeat split; reflexivity.
Qed.

(** ** IsOidPartOf and GetSubOid *)

Lemma append_inj_l (a b c : string) : a ++ b = a ++ c -> b = c.
Proof.
  induction a as [|x a IH]; simpl; intros E; [exact E|].
  injection E as E. exact (IH E).
Qed.

Lemma slice_to_in_range (s : string) (n : nat) :
  n <= length s -> slice_to s n = Returns (substring 0 n s).
Proof.
  intros H. unfold slice_to, slice. simpl.
  apply Nat.leb_le in H. rewrite H. now rewrite Nat.sub_0_r.
Qed.

Lemma slice_to_out_of_range (s : string) (n : nat) :
  length s < n -> slice_to s n = Panics.
Proof.
  intros H. unfold slice_to, slice. simpl.
  apply Nat.leb_gt in H. now rewrite H.
Qed.

Lemma slice_from_out_of_range (s : string) (n : nat) :
  length s < n -> slice_from s n = Panics.
Proof.
  intros H. unfold slice_from, slice.
  apply Nat.leb_gt in H. now rewrite H.
Qed.

Lemma IsOidPartOf_invalid (oid baseOid : string) :
  snmp.IsOid oid = false \/ snmp.IsOid baseOid = false ->
  snmp.IsOidPartOf oid baseOid = Returns false.
Proof.
  unfold snmp.IsOidPartOf. intros [H|H]; rewrite H; simpl; [reflexivity|].
  now rewrite orb_true_r.
Qed.

(** Two valid paths with the child shorter than the parent: the slice
    [oid[:lenBase]] is out of range. *)
Lemma IsOidPartOf_shorter_child (oid baseOid : string) :
  snmp.IsOid oid = true -> snmp.IsOid baseOid = true ->
  length oid < length baseOid ->
  snmp.IsOidPartOf oid baseOid = Panics.
Proof.
  intros Ho Hb Hlen. unfold snmp.IsOidPartOf. rewrite Ho, Hb. simpl.
  now rewrite (slice_to_out_of_range _ _ Hlen).
Qed.

(** Two valid paths with the child at least as long as the parent: the
    answer is the label-boundary test of the specification. *)
Lemma IsOidPartOf_longer_child (oid baseOid : string) :
  snmp.IsOid oid = true -> snmp.IsOid baseOid = true ->
  length baseOid <= length oid ->
  exists b, snmp.IsOidPartOf oid baseOid = Returns b /\
            (b = true <-> snmp.SubPath oid baseOid).
Proof.
  intros Ho Hb Hlen. unfold snmp.IsOidPartOf, snmp.SubPath.
  rewrite Ho, Hb. simpl.
  rewrite (slice_to_in_range _ _ Hlen). simpl.
  destruct (split_at oid (length baseOid) Hlen) as [rest [Esplit Lhead]].
  destruct (String.eqb_spec (substring 0 (length baseOid) oid) baseOid) as [Eh|Eh].
  - rewrite Eh in Esplit.
    destruct (Nat.eqb_spec (length oid) (length baseOid)) as [El|El].
    + exists true; split; [reflexivity|]. split; [|reflexivity]. intros _.
      repeat split. left.
      rewrite Esplit in El. rewrite length_append in El.
      destruct rest; simpl in El; [|lia].
      now rewrite Esplit, append_empty_r.
    + assert (Hrest : rest <> "").
      { intros ->. rewrite append_empty_r in Esplit. now rewrite Esplit in El. }
      destruct rest as [|x r]; [contradiction|clear Hrest].
      assert (Hin : length baseOid + 1 <= length oid).
      { rewrite Esplit, length_append. simpl. lia. }
      unfold slice. apply Nat.leb_le in Hin. rewrite Hin.
      replace (length baseOid <=? length baseOid + 1)%nat with true
        by (symmetry; apply Nat.leb_le; lia).
      replace (length baseOid + 1 - length baseOid) with 1 by lia.
      assert (Hsub : substring (length baseOid) 1 oid = String x "").
      { rewrite Esplit, substring_skip. simpl. destruct r; reflexivity. }
      simpl. rewrite Hsub.
      destruct (String.eqb_spec (String x "") ".") as [Ex|Ex].
      * exists true; split; [reflexivity|]. split; [|reflexivity]. intros _.
        repeat split. right. exists r. injection Ex as ->. exact Esplit.
      * exists false; split; [reflexivity|]. split; [discriminate|].
        intros [_ [_ [E|[r' E]]]]; exfalso.
        -- apply El. now rewrite E.
        -- apply Ex. rewrite E in Esplit. apply append_inj_l in Esplit.
           simpl in Esplit. now injection Esplit as <- _.
  - exists false; split; [reflexivity|]. split; [discriminate|].
    intros [_ [_ [E|[r' E]]]]; exfalso; apply Eh; rewrite E.
    + apply substring_all.
    + apply substring_head.
Qed.

(** On equal valid paths [IsOidPartOf] is true and the slice [oid[l+1:]]
    starts one past the end. *)
Lemma GetSubOid_equal_paths (p : string) :
  snmp.IsOid p = true -> snmp.GetSubOid p p = Panics.
Proof.
  intros Hp. unfold snmp.GetSubOid, snmp.IsOidPartOf. rewrite Hp. simpl.
  rewrite (slice_to_in_range p (length p) (Nat.le_refl _)). simpl.
  rewrite substring_all, String.eqb_refl, Nat.eqb_refl. simpl.
  apply slice_from_out_of_range. lia.
Qed.

(** A strict sub-path yields its Row Index. *)
Lemma GetSubOid_strict (oid baseOid rest : string) :
  snmp.IsOid oid = true -> snmp.IsOid baseOid = true ->
  oid = baseOid ++ "." ++ rest ->
  snmp.GetSubOid oid baseOid = Returns rest.
Proof.
  intros Ho Hb E.
  assert (Hlen : length baseOid <= length oid).
  { rewrite E, length_append. lia. }
  destruct (IsOidPartOf_longer_child oid baseOid Ho Hb Hlen) as [b [Hpart Hiff]].
  assert (b = true) as ->.
  { apply Hiff. repeat split; try assumption. right. exists rest. exact E. }
  unfold snmp.GetSubOid. rewrite Ho, Hb, Hpart. simpl.
  unfold slice_from, slice.
  assert (Hl : length oid = length baseOid + 1 + length rest).
  { rewrite E, length_append. simpl. lia. }
  replace (length baseOid + 1 <=? length oid)%nat with true
    by (symmetry; apply Nat.leb_le; lia).
  rewrite Nat.leb_refl. simpl.
  replace (length oid - (length baseOid + 1)) with (length rest) by lia.
  rewrite E.
  replace (baseOid ++ "." ++ rest) with ((baseOid ++ ".") ++ rest)
    by apply append_assoc.
  replace (length baseOid + 1) with (length (baseOid ++ "."))
    by (rewrite length_append; reflexivity).
  rewrite substring_skip. now rewrite substring_all.
Qed.

(** C2: on equal valid paths [GetSubOid] does not return the empty string:
    [GetSubOid(".1.1", ".1.1")] passes the [IsOidPartOf] guard and panics in
    [oid[l+1:]] ([GetSubOid_equal_paths] shows the same for every valid
    path). *)
Theorem GetSubOid_equal_paths_panics :
  snmp.IsOid ".1.1" = true /\
  snmp.GetSubOid ".1.1" ".1.1" = Panics /\
  snmp.GetSubOid ".1.1" ".1.1" <> Returns "".
Proof.
  split; [reflexivity|]. split; [reflexivity|]. discriminate.
Qed.

(** C3: for two valid paths with the child shorter than the parent
    [IsOidPartOf] does not return false: [IsOidPartOf(".1", ".1.1")] panics
    in [oid[:lenBase]] ([IsOidPartOf_shorter_child] shows the same for every
    such pair).  The examples of the specification, where the child is not
    shorter, come out as stated. *)
Theorem IsOidPartOf_shorter_child_panics :
  snmp.IsOid ".1" = true /\ snmp.IsOid ".1.1" = true /\
  snmp.IsOidPartOf ".1" ".1.1" = Panics /\
  snmp.IsOidPartOf ".1.3.6.1.1.5.1.1" ".1.3.6.1.1.5" = Returns true /\
  snmp.IsOidPartOf ".1.3.6.1.1.50" ".1.3.6.1.1.5" = Returns false.
Proof.
  repeat split; reflexivity.
Qed.

(** ** SetVersion *)

Lemma SetVersion_unrecognized (client : snmp.GoSNMP) (version : string) :
  version <> "1" -> version <> "2" -> version <> "2c" ->
  exists e, snd (snmp.SetVersion client version) = Some e.
Proof.
  intros H1 H2 H2c. unfold snmp.SetVersion.
  apply String.eqb_neq in H1, H2, H2c. rewrite H1, H2, H2c. simpl.
  destruct (version =? "3"); eexists; reflexivity.
Qed.

(** C10: [SetVersion] with "3" leaves [Version3] in the client and returns
    the error "SNMPv3 config not implemented"; for a client that had another
    version the call fails and the client has changed. *)
Theorem SetVersion_3_assigns_and_fails :
  (forall client,
     snmp.Version (fst (snmp.SetVersion client "3")) = snmp.Version3 /\
     snd (snmp.SetVersion client "3") = Some "SNMPv3 config not implemented") /\
  (exists client,
     snd (snmp.SetVersion client "3") <> None /\
     fst (snmp.SetVersion client "3") <> client).
Proof.
  split.
  - intros client. split; reflexivity.
  - exists (snmp.mkGoSNMP "localhost" "public" 0 1 snmp.Version2c).
    split; simpl; discriminate.
Qed.

(** ** The drive rules *)

Section DriveRules.

Variable AffectedModels : string -> option string.
Variable at_or_above : string -> string -> bool.
Variable label : string.

(** The device status is looked at first: the rule table and the firmware
    order play no part in the answer. *)
Lemma GetNagiosStatus_not_ok (d : phy_drv.PhysicalDrive) :
  phy_drv.Status d <> "ok" ->
  phy_drv.GetNagiosStatus AffectedModels at_or_above label d =
    (nagios.Critical,
     phy_drv.description label d ++ " - status: " ++ phy_drv.Status d).
Proof.
  intros H. unfold phy_drv.GetNagiosStatus.
  apply String.eqb_neq in H. now rewrite H.
Qed.

Lemma GetNagiosStatus_affected (d : phy_drv.PhysicalDrive) (fixed : string) :
  phy_drv.Status d = "ok" ->
  AffectedModels (phy_drv.Model d) = Some fixed ->
  phy_drv.GetNagiosStatus AffectedModels at_or_above label d =
    if at_or_above (phy_drv.FwRev d) fixed
    then (nagios.OK, phy_drv.description label d ++ " - firmware update applied")
    else (nagios.Critical, phy_drv.description label d ++ " - affected by FW bug").
Proof.
  intros Hs Hm. unfold phy_drv.GetNagiosStatus.
  rewrite Hs, Hm. reflexivity.
Qed.

Lemma GetNagiosStatus_unaffected (d : phy_drv.PhysicalDrive) :
  phy_drv.Status d = "ok" ->
  AffectedModels (phy_drv.Model d) = None ->
  phy_drv.GetNagiosStatus AffectedModels at_or_above label d = (nagios.OK, phy_drv.description label d).
Proof.
  intros Hs Hm. unfold phy_drv.GetNagiosStatus.
  rewrite Hs, Hm. reflexivity.
Qed.

End DriveRules.

(** C7: for a drive of an affected model whose device status is ok, the
    firmware decides: below the fix version the evaluation is CRITICAL with
    a message containing "affected", at or above it the evaluation is OK
    with a message containing "applied". *)
Theorem affected_model_decided_by_firmware
    (AffectedModels : string -> option string)
    (at_or_above : string -> string -> bool) (label : string)
    (d : phy_drv.PhysicalDrive) (fixed : string) :
  phy_drv.Status d = "ok" ->
  AffectedModels (phy_drv.Model d) = Some fixed ->
  (at_or_above (phy_drv.FwRev d) fixed = false ->
   fst (phy_drv.GetNagiosStatus AffectedModels at_or_above label d) = nagios.Critical /\
   Contains (snd (phy_drv.GetNagiosStatus AffectedModels at_or_above label d)) "affected") /\
  (at_or_above (phy_drv.FwRev d) fixed = true ->
   fst (phy_drv.GetNagiosStatus AffectedModels at_or_above label d) = nagios.OK /\
   Contains (snd (phy_drv.GetNagiosStatus AffectedModels at_or_above label d)) "applied").
Proof.
  intros Hs Hm.
  rewrite (GetNagiosStatus_affected AffectedModels at_or_above label d fixed Hs Hm).
  split; intros Hfw; rewrite Hfw; simpl; (split; [reflexivity|]).
  - apply contains_suffix. exists " - ", " by FW bug". reflexivity.
  - apply contains_suffix. exists " - firmware update ", "". reflexivity.
Qed.

(** The affected drive of the test with the firmware of the test ("HPD1")
    and with the fixed firmware ("HPD8"). *)
Lemma affected_model_decided_by_firmware_witness :
  (fst (phy_drv.GetNagiosStatus phy_drv.test_AffectedModels phy_drv.test_at_or_above
          "physical drive "
          (phy_drv.with_Model phy_drv.test_drive phy_drv.affectedDrive))
   = nagios.Critical /\
   Contains
     (snd (phy_drv.GetNagiosStatus phy_drv.test_AffectedModels phy_drv.test_at_or_above
             "physical drive "
             (phy_drv.with_Model phy_drv.test_drive phy_drv.affectedDrive)))
     "affected") /\
  (fst (phy_drv.GetNagiosStatus phy_drv.test_AffectedModels phy_drv.test_at_or_above
          "physical drive "
          (phy_drv.with_FwRev
             (phy_drv.with_Model phy_drv.test_drive phy_drv.affectedDrive)
             phy_drv.affectedDriveFixed))
   = nagios.OK /\
   Contains
     (snd (phy_drv.GetNagiosStatus phy_drv.test_AffectedModels phy_drv.test_at_or_above
             "physical drive "
             (phy_drv.with_FwRev
                (phy_drv.with_Model phy_drv.test_drive phy_drv.affectedDrive)
                phy_drv.affectedDriveFixed)))
     "applied").
Proof.
  split.
  - apply (affected_model_decided_by_firmware
             phy_drv.test_AffectedModels phy_drv.test_at_or_above "physical drive "
             (phy_drv.with_Model phy_drv.test_drive phy_drv.affectedDrive)
             phy_drv.affectedDriveFixed); reflexivity.
  - apply (affected_model_decided_by_firmware
             phy_drv.test_AffectedModels phy_drv.test_at_or_above "physical drive "
             (phy_drv.with_FwRev
                (phy_drv.with_Model phy_drv.test_drive phy_drv.affectedDrive)
                phy_drv.affectedDriveFixed)
             phy_drv.affectedDriveFixed); reflexivity.
Defined.

(** C8: a drive whose device status is "failed" is CRITICAL with a message
    containing "status: failed", whatever its model and firmware and
    whatever the rule table says about them. *)
Theorem failed_status_is_critical
    (AffectedModels : string -> option string)
    (at_or_above : string -> string -> bool) (label : string)
    (d : phy_drv.PhysicalDrive) :
  phy_drv.Status d = "failed" ->
  fst (phy_drv.GetNagiosStatus AffectedModels at_or_above label d) = nagios.Critical /\
  Contains (snd (phy_drv.GetNagiosStatus AffectedModels at_or_above label d))
           "status: failed".
Proof.
  intros Hs.
  rewrite (GetNagiosStatus_not_ok AffectedModels at_or_above label d)
    by (rewrite Hs; discriminate).
  rewrite Hs. simpl. split; [reflexivity|].
  apply contains_suffix. exists " - ", "". reflexivity.
Qed.

(** The affected drive of the test, failed: the status wins over the rule
    that would otherwise call it affected. *)
Lemma failed_status_is_critical_witness :
  fst (phy_drv.GetNagiosStatus phy_drv.test_AffectedModels phy_drv.test_at_or_above
         "physical drive "
         (phy_drv.with_Status
            (phy_drv.with_Model phy_drv.test_drive phy_drv.affectedDrive) "failed"))
  = nagios.Critical /\
  Contains
    (snd (phy_drv.GetNagiosStatus phy_drv.test_AffectedModels phy_drv.test_at_or_above
            "physical drive "
            (phy_drv.with_Status
               (phy_drv.with_Model phy_drv.test_drive phy_drv.affectedDrive) "failed")))
    "status: failed".
Proof.
  apply (failed_status_is_critical
           phy_drv.test_AffectedModels phy_drv.test_at_or_above "physical drive "
           (phy_drv.with_Status
              (phy_drv.with_Model phy_drv.test_drive phy_drv.affectedDrive) "failed")).
  reflexivity.
Defined.

(** ** The aggregator *)

Lemma Add_fields (o : nagios.Overall) (state : nagios.Severity) (output : string) :
  nagios.Outputs (nagios.Add o state output) = (nagios.Outputs o ++ [output])%list /\
  nagios.Summary (nagios.Add o state output) = nagios.Summary o /\
  nagios.Criticals (nagios.Add o state output)
    = nagios.Criticals o + nagios.count_sev nagios.Critical [(state, output)] /\
  nagios.Warnings (nagios.Add o state output)
    = nagios.Warnings o + nagios.count_sev nagios.Warning [(state, output)] /\
  nagios.added (nagios.Add o state output) = S (nagios.added o).
Proof.
  unfold nagios.added, nagios.count_sev.
  destruct state; simpl; repeat split; try reflexivity; lia.
Qed.

Lemma count_sev_cons (s : nagios.Severity) (call : nagios.Severity * string)
    (calls : list (nagios.Severity * string)) :
  nagios.count_sev s (call :: calls)
    = nagios.count_sev s [call] + nagios.count_sev s calls.
Proof.
  unfold nagios.count_sev. simpl. destruct (nagios.is_sev s call); reflexivity.
Qed.

(** The counters and the log after a sequence of calls. *)
Lemma AddAll_fields (calls : list (nagios.Severity * string)) : forall o,
  nagios.Outputs (nagios.AddAll o calls) = (nagios.Outputs o ++ map snd calls)%list /\
  nagios.Summary (nagios.AddAll o calls) = nagios.Summary o /\
  nagios.Criticals (nagios.AddAll o calls)
    = nagios.Criticals o + nagios.count_sev nagios.Critical calls /\
  nagios.Warnings (nagios.AddAll o calls)
    = nagios.Warnings o + nagios.count_sev nagios.Warning calls /\
  nagios.added (nagios.AddAll o calls) = nagios.added o + List.length calls.
Proof.
  induction calls as [|[state output] calls IH]; intros o.
  - unfold nagios.count_sev. simpl. rewrite app_nil_r. repeat split; try reflexivity; lia.
  - change (nagios.AddAll o ((state, output) :: calls))
      with (nagios.AddAll (nagios.Add o state output) calls).
    destruct (IH (nagios.Add o state output)) as [Ho [Hs [Hc [Hw Ha]]]].
    destruct (Add_fields o state output) as [Ao [As [Ac [Aw Aa]]]].
    repeat split.
    + rewrite Ho, Ao, <- app_assoc. reflexivity.
    + now rewrite Hs, As.
    + rewrite Hc, Ac, (count_sev_cons nagios.Critical (state, output) calls). lia.
    + rewrite Hw, Aw, (count_sev_cons nagios.Warning (state, output) calls). lia.
    + rewrite Ha, Aa. simpl. lia.
Qed.

Lemma existsb_count_sev (s : nagios.Severity) (calls : list (nagios.Severity * string)) :
  existsb (nagios.is_sev s) calls = (0 <? nagios.count_sev s calls)%nat.
Proof.
  unfold nagios.count_sev.
  induction calls as [|call calls IH]; simpl; [reflexivity|].
  destruct (nagios.is_sev s call); simpl; [reflexivity | exact IH].
Qed.

(** C9: after any sequence of [Add] calls on a fresh aggregator the overall
    status is CRITICAL if a CRITICAL was added, else WARNING if a WARNING
    was added, else OK if anything was added, else UNKNOWN; the log holds the
    messages in call order and the rendered output is the summary line
    followed by them in that order.  One OK and one CRITICAL record give
    CRITICAL with both messages in call order. *)
Theorem Overall_status_and_message_order :
  (forall calls,
     nagios.GetStatus (nagios.AddAll nagios.empty calls) = nagios.overall_of_calls calls /\
     nagios.Outputs (nagios.AddAll nagios.empty calls) = map snd calls /\
     (forall summary,
        nagios.GetOutput (nagios.set_Summary (nagios.AddAll nagios.empty calls) summary)
        = summary ++ LF ++ unlines (map snd calls))) /\
  nagios.GetStatus
    (nagios.AddAll nagios.empty [(nagios.OK, "first"); (nagios.Critical, "second")])
  = nagios.Critical /\
  nagios.GetOutput
    (nagios.AddAll nagios.empty [(nagios.OK, "first"); (nagios.Critical, "second")])
  = "" ++ LF ++ "first" ++ LF ++ "second" ++ LF.
Proof.
  split; [|split; reflexivity].
  intros calls.
  destruct (AddAll_fields calls nagios.empty) as [Ho [Hs [Hc [Hw Ha]]]].
  simpl in Ho, Hc, Hw, Ha.
  split; [|split].
  - unfold nagios.GetStatus, nagios.overall_of_calls.
    rewrite Hc, Hw, Ha, !existsb_count_sev.
    destruct (0 <? nagios.count_sev nagios.Critical calls)%nat; [reflexivity|].
    destruct (0 <? nagios.count_sev nagios.Warning calls)%nat; [reflexivity|].
    destruct calls; reflexivity.
  - exact Ho.
  - intros summary. unfold nagios.GetOutput, nagios.set_Summary. simpl.
    now rewrite Ho.
Qed.

(** ** The control flow of [main] *)

Section RunLemmas.

Context {C : Type}.
Variable P : event C -> bool.

Lemma only_ret {A : Type} (a : A) : only P (ret a).
Proof. reflexivity. Qed.

Lemma only_halt {A : Type} (h : halt) : only P (([], Halt h) : Run C A).
Proof. reflexivity. Qed.

Lemma only_emit (e : event C) : P e = true -> only P (emit e).
Proof. unfold only; simpl. intros ->. reflexivity. Qed.

Lemma only_check_err (err : error) : only P (check_err err).
Proof. destruct err; reflexivity. Qed.

Lemma only_check_result {A : Type} (r : result A) : only P (check_result r).
Proof. destruct r; reflexivity. Qed.

Lemma only_bind {A B : Type} (m : Run C A) (k : A -> Run C B) :
  only P m -> (forall a, only P (k a)) -> only P (bind m k).
Proof.
  unfold only. destruct m as [tr [a|h]]; simpl; intros Hm Hk; [|exact Hm].
  specialize (Hk a). destruct (k a) as [tr' s]. simpl in *.
  rewrite forallb_app, Hm, Hk. reflexivity.
Qed.

Lemma only_In {A : Type} (m : Run C A) :
  only P m -> forall e, In e (fst m) -> P e = true.
Proof.
  unfold only. intros H e He. rewrite forallb_forall in H. exact (H e He).
Qed.

End RunLemmas.

(** A piece that continues, followed by the rest of [main]. *)
Lemma bind_continue {C A B : Type} (tr : list (event C)) (a : A)
    (k : A -> Run C B) (m : Run C A) :
  m = (tr, Continue a) ->
  bind m k = ((tr ++ fst (k a))%list, snd (k a)).
Proof.
  intros ->. simpl. destruct (k a); reflexivity.
Qed.

Ltac only_steps :=
  repeat first
    [ apply only_ret | apply only_halt | apply only_check_err
    | apply only_check_result | apply only_emit; reflexivity
    | apply only_bind; [|intros ?] ].

(** Loading the tables neither extracts nor evaluates a record. *)
Lemma firmware_main_load_before_records (C : Type) (w : check_hp_firmware.World C) :
  only before_records (check_hp_firmware.main_load C w).
Proof.
  unfold check_hp_firmware.main_load.
  destruct (check_hp_firmware.args C w) as [err isHelp|f].
  - destruct isHelp; only_steps.
  - destruct (show_version f), (negb (snmpwalk_file f =? "")); only_steps.
Qed.

Lemma disk_main_load_before_records (w : check_hp_disk_firmware.World) :
  only before_records (check_hp_disk_firmware.main_load w).
Proof.
  unfold check_hp_disk_firmware.main_load.
  destruct (check_hp_disk_firmware.args w) as [err isHelp|f].
  - destruct isHelp; only_steps.
  - destruct (show_version f), (negb (snmpwalk_file f =? "")); only_steps.
    all: destruct (snmp.SetVersion _ _); only_steps.
Qed.

(** The first check of the later [main]. *)
Lemma firmware_main_check_no_controllers (C : Type) (w : check_hp_firmware.World C)
    (cntlrTable : cntlr.CpqDaCntlrTable) (driveTable : phy_drv.CpqDaPhyDrvTable) :
  Values (cntlr.Snmp cntlrTable) = [] ->
  check_hp_firmware.main_check C w (cntlrTable, driveTable)
  = ([], Halt (Exited 3 "No HP controller data found!")).
Proof.
  intros H. unfold check_hp_firmware.main_check. rewrite H. reflexivity.
Qed.

(** Its second check, reached when the controllers were extracted. *)
Lemma firmware_main_check_no_drives (C : Type) (w : check_hp_firmware.World C)
    (cntlrTable : cntlr.CpqDaCntlrTable) (driveTable : phy_drv.CpqDaPhyDrvTable)
    (controllers : list C) :
  Values (cntlr.Snmp cntlrTable) <> [] ->
  check_hp_firmware.GetControllersFromTable C w cntlrTable = Ok controllers ->
  Values (phy_drv.Snmp driveTable) = [] ->
  check_hp_firmware.main_check C w (cntlrTable, driveTable)
  = ([EvExtractControllers], Halt (Exited 3 "No HP drive data found!")).
Proof.
  intros Hc He Hd. unfold check_hp_firmware.main_check.
  destruct (Values (cntlr.Snmp cntlrTable)) as [|row rows]; [contradiction|].
  rewrite He, Hd. reflexivity.
Qed.

Lemma disk_main_check_no_drives (w : check_hp_disk_firmware.World)
    (table : phy_drv.CpqDaPhyDrvTable) :
  Values (phy_drv.Snmp table) = [] ->
  check_hp_disk_firmware.main_check w table
  = ([], Halt (Exited 3 "No HP drive data found!")).
Proof.
  intros H. unfold check_hp_disk_firmware.main_check, ListIds. rewrite H. reflexivity.
Qed.

Lemma before_records_not_evaluation {C : Type} (e : event C) :
  before_records e = true -> is_evaluation e = false.
Proof.
  unfold before_records. destruct (is_evaluation e); [|reflexivity].
  rewrite andb_false_r. discriminate.
Qed.

(** C1, as the code has it: when the run reaches the table checks with an
    empty controller table, it ends there with exit code 3 (UNKNOWN) and
    "No HP controller data found!", whatever the drive table holds; no
    record of either class is extracted or evaluated in that run. *)
Theorem empty_controller_table_ends_run
    (C : Type) (w : check_hp_firmware.World C) (tr : list (event C))
    (cntlrTable : cntlr.CpqDaCntlrTable) (driveTable : phy_drv.CpqDaPhyDrvTable) :
  check_hp_firmware.main_load C w = (tr, Continue (cntlrTable, driveTable)) ->
  Values (cntlr.Snmp cntlrTable) = [] ->
  check_hp_firmware.main C w
    = (tr, Halt (Exited (nagios.rc nagios.Unknown) "No HP controller data found!")) /\
  (forall e, In e (fst (check_hp_firmware.main C w)) ->
             is_extraction e = false /\ is_evaluation e = false).
Proof.
  intros Hload Hempty.
  assert (Hmain : check_hp_firmware.main C w
                  = (tr, Halt (Exited 3 "No HP controller data found!"))).
  { unfold check_hp_firmware.main.
    rewrite (bind_continue tr _ _ _ Hload).
    rewrite (firmware_main_check_no_controllers C w _ _ Hempty). simpl.
    now rewrite app_nil_r. }
  split; [exact Hmain|].
  intros e He. rewrite Hmain in He. simpl in He.
  pose proof (firmware_main_load_before_records C w) as Hq.
  assert (Hb : before_records e = true).
  { apply (only_In _ _ Hq). rewrite Hload. exact He. }
  unfold before_records in Hb. apply andb_true_iff in Hb.
  destruct Hb as [Hx Hv]. apply negb_true_iff in Hx, Hv. split; assumption.
Qed.

(** A capture file with no controller row and one drive row. *)
Lemma empty_controller_table_ends_run_witness :
  check_hp_firmware.main string
    (check_hp_firmware.file_world check_hp_firmware.no_controller_table
                                  check_hp_firmware.one_drive_table)
    = ([EvOpen "walk.txt"; EvLoadControllers; EvSeek; EvLoadDrives],
       Halt (Exited (nagios.rc nagios.Unknown) "No HP controller data found!")) /\
  (forall e,
     In e (fst (check_hp_firmware.main string
                  (check_hp_firmware.file_world check_hp_firmware.no_controller_table
                                                check_hp_firmware.one_drive_table))) ->
     is_extraction e = false /\ is_evaluation e = false).
Proof.
  apply (empty_controller_table_ends_run string
           (check_hp_firmware.file_world check_hp_firmware.no_controller_table
                                         check_hp_firmware.one_drive_table)
           [EvOpen "walk.txt"; EvLoadControllers; EvSeek; EvLoadDrives]
           check_hp_firmware.no_controller_table
           check_hp_firmware.one_drive_table).
  - reflexivity.
  - reflexivity.
Defined.

(** C1 as stated fails: with no controller row and one drive row the run
    reaches the checks, and the drives are neither extracted nor
    evaluated. *)
Lemma drives_do_not_survive_empty_controllers :
  ~ check_hp_firmware.drives_survive_empty_controllers string
      (check_hp_firmware.file_world check_hp_firmware.no_controller_table
                                    check_hp_firmware.one_drive_table).
Proof.
  intros H.
  destruct (H [EvOpen "walk.txt"; EvLoadControllers; EvSeek; EvLoadDrives]
              check_hp_firmware.no_controller_table
              check_hp_firmware.one_drive_table
              eq_refl eq_refl) as [Hin _].
  - discriminate.
  - simpl in Hin.
    repeat (destruct Hin as [Hin|Hin]; [discriminate|]). exact Hin.
Qed.

(** C5, as the code has it: a run of the later [main] that reaches the
    table checks with an empty controller table, or with an empty drive
    table once the controllers were extracted without error, ends with exit
    code 3 (UNKNOWN) and the "No HP ... data found!" message of that table;
    when the extractor fails on the controller rows the run ends with that
    error instead, whatever the drive table holds.  A run of main.go that
    reaches the check with an empty drive table ends with exit code 3 and
    "No HP drive data found!".  No [GetNagiosStatus] call happens in any of
    these runs. *)
Theorem empty_table_exits_unknown_before_evaluation :
  (forall (C : Type) (w : check_hp_firmware.World C) (tr : list (event C))
          (cntlrTable : cntlr.CpqDaCntlrTable) (driveTable : phy_drv.CpqDaPhyDrvTable),
     check_hp_firmware.main_load C w = (tr, Continue (cntlrTable, driveTable)) ->
     (Values (cntlr.Snmp cntlrTable) = [] ->
      check_hp_firmware.main C w
        = (tr, Halt (Exited (nagios.rc nagios.Unknown) "No HP controller data found!")) /\
      only (fun e => negb (is_evaluation e)) (check_hp_firmware.main C w)) /\
     (forall controllers,
        Values (cntlr.Snmp cntlrTable) <> [] ->
        check_hp_firmware.GetControllersFromTable C w cntlrTable = Ok controllers ->
        Values (phy_drv.Snmp driveTable) = [] ->
        check_hp_firmware.main C w
          = ((tr ++ [EvExtractControllers])%list,
             Halt (Exited (nagios.rc nagios.Unknown) "No HP drive data found!")) /\
        only (fun e => negb (is_evaluation e)) (check_hp_firmware.main C w)) /\
     (forall e,
        Values (cntlr.Snmp cntlrTable) <> [] ->
        check_hp_firmware.GetControllersFromTable C w cntlrTable = Err e ->
        check_hp_firmware.main C w
          = ((tr ++ [EvExtractControllers])%list, Halt (ExitedError e)) /\
        only (fun e => negb (is_evaluation e)) (check_hp_firmware.main C w))) /\
  (forall (w : check_hp_disk_firmware.World) (tr : list (event _))
          (table : phy_drv.CpqDaPhyDrvTable),
     check_hp_disk_firmware.main_load w = (tr, Continue table) ->
     Values (phy_drv.Snmp table) = [] ->
     check_hp_disk_firmware.main w
       = (tr, Halt (Exited (nagios.rc nagios.Unknown) "No HP drive data found!")) /\
     only (fun e => negb (is_evaluation e)) (check_hp_disk_firmware.main w)).
Proof.
  assert (Hquiet : forall (C : Type) (A : Type) (m : Run C A) (tr : list (event C)),
             only before_records m -> tr = fst m ->
             forallb (fun e => negb (is_evaluation e)) tr = true).
  { intros C A m tr Hm ->. apply forallb_forall. intros e He.
    rewrite (before_records_not_evaluation e (only_In _ _ Hm e He)). reflexivity. }
  split.
  - intros C w tr cntlrTable driveTable Hload.
    pose proof (Hquiet C _ _ tr (firmware_main_load_before_records C w)) as Htr.
    rewrite Hload in Htr. specialize (Htr eq_refl).
    split; [|split].
    + intros Hempty.
      assert (Hmain : check_hp_firmware.main C w
                      = (tr, Halt (Exited 3 "No HP controller data found!"))).
      { unfold check_hp_firmware.main.
        rewrite (bind_continue tr _ _ _ Hload).
        rewrite (firmware_main_check_no_controllers C w _ _ Hempty). simpl.
        now rewrite app_nil_r. }
      split; [exact Hmain|]. unfold only. rewrite Hmain. exact Htr.
    + intros controllers Hc He Hd.
      assert (Hmain : check_hp_firmware.main C w
                      = ((tr ++ [EvExtractControllers])%list,
                         Halt (Exited 3 "No HP drive data found!"))).
      { unfold check_hp_firmware.main.
        rewrite (bind_continue tr _ _ _ Hload).
        rewrite (firmware_main_check_no_drives C w _ _ controllers Hc He Hd).
        reflexivity. }
      split; [exact Hmain|]. unfold only. rewrite Hmain. simpl.
      rewrite forallb_app, Htr. reflexivity.
    + intros e Hc He.
      assert (Hmain : check_hp_firmware.main C w
                      = ((tr ++ [EvExtractControllers])%list, Halt (ExitedError e))).
      { unfold check_hp_firmware.main.
        rewrite (bind_continue tr _ _ _ Hload).
        unfold check_hp_firmware.main_check.
        destruct (Values (cntlr.Snmp cntlrTable)) as [|row rows]; [contradiction|].
        rewrite He. reflexivity. }
      split; [exact Hmain|]. unfold only. rewrite Hmain. simpl.
      rewrite forallb_app, Htr. reflexivity.
  - intros w tr table Hload Hempty.
    pose proof (Hquiet _ _ _ tr (disk_main_load_before_records w)) as Htr.
    rewrite Hload in Htr. specialize (Htr eq_refl).
    assert (Hmain : check_hp_disk_firmware.main w
                    = (tr, Halt (Exited 3 "No HP drive data found!"))).
    { unfold check_hp_disk_firmware.main.
      rewrite (bind_continue tr _ _ _ Hload).
      rewrite (disk_main_check_no_drives w _ Hempty). simpl.
      now rewrite app_nil_r. }
    split; [exact Hmain|]. unfold only. rewrite Hmain. exact Htr.
Qed.

(** A capture file with an unreadable controller row and no drive row, one
    with no controller row, one with a controller row and no drive row, and
    a device that answers main.go with an empty drive table. *)
Lemma empty_table_exits_unknown_before_evaluation_witness :
  (check_hp_firmware.main string unreadable_controllers_world
   = (([EvOpen "walk.txt"; EvLoadControllers; EvSeek; EvLoadDrives]
       ++ [EvExtractControllers])%list,
      Halt (ExitedError "could not parse controller")) /\
   only (fun e => negb (is_evaluation e))
     (check_hp_firmware.main string unreadable_controllers_world)) /\
  (check_hp_firmware.main string
     (check_hp_firmware.file_world check_hp_firmware.no_controller_table
        check_hp_firmware.one_drive_table)
   = ([EvOpen "walk.txt"; EvLoadControllers; EvSeek; EvLoadDrives],
      Halt (Exited 3 "No HP controller data found!")) /\
   only (fun e => negb (is_evaluation e))
     (check_hp_firmware.main string
        (check_hp_firmware.file_world check_hp_firmware.no_controller_table
           check_hp_firmware.one_drive_table))) /\
  (check_hp_firmware.main string
     (check_hp_firmware.file_world check_hp_firmware.one_controller_table
        (phy_drv.mkCpqDaPhyDrvTable (mkTable [])))
   = ([EvOpen "walk.txt"; EvLoadControllers; EvSeek; EvLoadDrives;
       EvExtractControllers],
      Halt (Exited 3 "No HP drive data found!")) /\
   only (fun e => negb (is_evaluation e))
     (check_hp_firmware.main string
        (check_hp_firmware.file_world check_hp_firmware.one_controller_table
           (phy_drv.mkCpqDaPhyDrvTable (mkTable []))))) /\
  (check_hp_disk_firmware.main
     (check_hp_disk_firmware.sample_world (check_hp_disk_firmware.live_flags "2c")
        (phy_drv.mkCpqDaPhyDrvTable (mkTable [])))
   = ([EvConnect ConnectDefault
         (snmp.mkGoSNMP "localhost" "public" 15000000000 1 snmp.Version2c);
       EvWalkDrives],
      Halt (Exited 3 "No HP drive data found!")) /\
   only (fun e => negb (is_evaluation e))
     (check_hp_disk_firmware.main
        (check_hp_disk_firmware.sample_world (check_hp_disk_firmware.live_flags "2c")
           (phy_drv.mkCpqDaPhyDrvTable (mkTable []))))).
Proof.
  split.
  { apply (proj2 (proj2 (proj1 empty_table_exits_unknown_before_evaluation string
             unreadable_controllers_world
             [EvOpen "walk.txt"; EvLoadControllers; EvSeek; EvLoadDrives]
             check_hp_firmware.one_controller_table
             (phy_drv.mkCpqDaPhyDrvTable (mkTable []))
             eq_refl))
           "could not parse controller").
    - discriminate.
    - reflexivity. }
  split; [|split].
  - apply (proj1 (proj1 empty_table_exits_unknown_before_evaluation string
             (check_hp_firmware.file_world check_hp_firmware.no_controller_table
                check_hp_firmware.one_drive_table)
             [EvOpen "walk.txt"; EvLoadControllers; EvSeek; EvLoadDrives]
             check_hp_firmware.no_controller_table
             check_hp_firmware.one_drive_table
             eq_refl)).
    reflexivity.
  - apply (proj1 (proj2 (proj1 empty_table_exits_unknown_before_evaluation string
             (check_hp_firmware.file_world check_hp_firmware.one_controller_table
                (phy_drv.mkCpqDaPhyDrvTable (mkTable [])))
             [EvOpen "walk.txt"; EvLoadControllers; EvSeek; EvLoadDrives]
             check_hp_firmware.one_controller_table
             (phy_drv.mkCpqDaPhyDrvTable (mkTable []))
             eq_refl))
           ["0"]).
    + discriminate.
    + reflexivity.
    + reflexivity.
  - apply (proj2 empty_table_exits_unknown_before_evaluation
             (check_hp_disk_firmware.sample_world
                (check_hp_disk_firmware.live_flags "2c")
                (phy_drv.mkCpqDaPhyDrvTable (mkTable [])))
             [EvConnect ConnectDefault
                (snmp.mkGoSNMP "localhost" "public" 15000000000 1 snmp.Version2c);
              EvWalkDrives]
             (phy_drv.mkCpqDaPhyDrvTable (mkTable []))).
    + reflexivity.
    + reflexivity.
Defined.

(** C5 as stated fails: with one controller row that the extractor cannot
    read and no drive row the run reaches the checks with an empty drive
    table and ends with the extractor's error, not with a "No HP ... data
    found!" message. *)
Lemma empty_drive_table_behind_unreadable_controllers :
  ~ empty_table_means_no_data_found string unreadable_controllers_world.
Proof.
  intros H.
  destruct (H [EvOpen "walk.txt"; EvLoadControllers; EvSeek; EvLoadDrives]
              check_hp_firmware.one_controller_table
              (phy_drv.mkCpqDaPhyDrvTable (mkTable []))
              eq_refl (or_intror eq_refl)) as [E|E];
    discriminate E.
Qed.

(** That run, with the error it ends on. *)
Example unreadable_controllers_run :
  check_hp_firmware.main string unreadable_controllers_world
  = ([EvOpen "walk.txt"; EvLoadControllers; EvSeek; EvLoadDrives;
      EvExtractControllers],
     Halt (ExitedError "could not parse controller")).
Proof. reflexivity. Qed.

(** C6: a protocol selector other than "1", "2" and "2c" makes [SetVersion]
    return an error for every client, and a run of main.go against a device
    with that selector ends with that error before any event: nothing is
    connected to, loaded or walked. *)
Theorem unrecognized_version_is_fatal_before_retrieval (selector : string) :
  selector <> "1" -> selector <> "2" -> selector <> "2c" ->
  (forall client, exists e, snd (snmp.SetVersion client selector) = Some e) /\
  (forall (w : check_hp_disk_firmware.World) (f : Flags),
     check_hp_disk_firmware.args w = Parsed f ->
     show_version f = false ->
     snmpwalk_file f = "" ->
     protocol f = selector ->
     exists e,
       snd (snmp.SetVersion (check_hp_disk_firmware.make_client w f) selector) = Some e /\
       check_hp_disk_firmware.main w = ([], Halt (ExitedError e)) /\
       only (fun ev => negb (retrieves_data ev)) (check_hp_disk_firmware.main w)).
Proof.
  intros H1 H2 H2c. split.
  - intros client. exact (SetVersion_unrecognized client selector H1 H2 H2c).
  - intros w f Hargs Hv Hfile Hproto.
    destruct (SetVersion_unrecognized (check_hp_disk_firmware.make_client w f)
                selector H1 H2 H2c) as [e He].
    exists e. split; [exact He|].
    assert (Hmain : check_hp_disk_firmware.main w = ([], Halt (ExitedError e))).
    { unfold check_hp_disk_firmware.main, check_hp_disk_firmware.main_load.
      rewrite Hargs, Hv, Hfile, Hproto.
      destruct (snmp.SetVersion (check_hp_disk_firmware.make_client w f) selector)
        as [client err].
      simpl in He. subst err. reflexivity. }
    split; [exact Hmain|]. unfold only. rewrite Hmain. reflexivity.
Qed.

(** The selectors "3" (a protocol version, not configured) and "4" (no
    protocol version) against a device. *)
Lemma unrecognized_version_is_fatal_before_retrieval_witness :
  (exists e,
     snd (snmp.SetVersion
            (check_hp_disk_firmware.make_client
               (check_hp_disk_firmware.sample_world
                  (check_hp_disk_firmware.live_flags "3")
                  check_hp_firmware.one_drive_table)
               (check_hp_disk_firmware.live_flags "3")) "3") = Some e /\
     check_hp_disk_firmware.main
       (check_hp_disk_firmware.sample_world (check_hp_disk_firmware.live_flags "3")
          check_hp_firmware.one_drive_table)
     = ([], Halt (ExitedError e)) /\
     only (fun ev => negb (retrieves_data ev))
       (check_hp_disk_firmware.main
          (check_hp_disk_firmware.sample_world (check_hp_disk_firmware.live_flags "3")
             check_hp_firmware.one_drive_table))) /\
  (exists e,
     snd (snmp.SetVersion
            (check_hp_disk_firmware.make_client
               (check_hp_disk_firmware.sample_world
                  (check_hp_disk_firmware.live_flags "4")
                  check_hp_firmware.one_drive_table)
               (check_hp_disk_firmware.live_flags "4")) "4") = Some e /\
     check_hp_disk_firmware.main
       (check_hp_disk_firmware.sample_world (check_hp_disk_firmware.live_flags "4")
          check_hp_firmware.one_drive_table)
     = ([], Halt (ExitedError e)) /\
     only (fun ev => negb (retrieves_data ev))
       (check_hp_disk_firmware.main
          (check_hp_disk_firmware.sample_world (check_hp_disk_firmware.live_flags "4")
             check_hp_firmware.one_drive_table))).
Proof.
  split.
  - apply (proj2 (unrecognized_version_is_fatal_before_retrieval "3"
                    ltac:(discriminate) ltac:(discriminate) ltac:(discriminate))
             (check_hp_disk_firmware.sample_world
                (check_hp_disk_firmware.live_flags "3")
                check_hp_firmware.one_drive_table)
             (check_hp_disk_firmware.live_flags "3"));
      reflexivity.
  - apply (proj2 (unrecognized_version_is_fatal_before_retrieval "4"
                    ltac:(discriminate) ltac:(discriminate) ltac:(discriminate))
             (check_hp_disk_firmware.sample_world
                (check_hp_disk_firmware.live_flags "4")
                check_hp_firmware.one_drive_table)
             (check_hp_disk_firmware.live_flags "4"));
      reflexivity.
Defined.

(** The two runs above, with the error each ends on. *)
Example selector_3_run :
  check_hp_disk_firmware.main
    (check_hp_disk_firmware.sample_world (check_hp_disk_firmware.live_flags "3")
       check_hp_firmware.one_drive_table)
  = ([], Halt (ExitedError "SNMPv3 config not implemented")).
Proof. reflexivity. Qed.

Example selector_4_run :
  check_hp_disk_firmware.main
    (check_hp_disk_firmware.sample_world (check_hp_disk_firmware.live_flags "4")
       check_hp_firmware.one_drive_table)
  = ([], Halt (ExitedError "unknown SNMP version: 4")).
Proof. reflexivity. Qed.

(** The Row Index example of the specification. *)
Example GetSubOid_row_index :
  snmp.GetSubOid ".1.3.6.1.1.5.1.1" ".1.3.6.1.1.5" = Returns "1.1".
Proof. reflexivity. Qed.

(* ================================================================= *)
(** * Further properties of the code *)

(** ** OIDs under concatenation *)

(** The loop over a concatenation is the loop over the second part started
    where the first part ended. *)
Lemma scan_app (s1 s2 : string) : forall c,
  snmp.scan c (s1 ++ s2)
  = match snmp.scan c s1 with
    | Some l => snmp.scan l s2
    | None => None
    end.
Proof.
  induction s1 as [|d t IH]; intros c; simpl; [reflexivity|].
  destruct (d =? ".")%char.
  - destruct (c =? ".")%char; [reflexivity | apply IH].
  - destruct (negb (snmp.isDigit d)); [reflexivity | apply IH].
Qed.

(** After the leading separator the length test adds nothing: the loop
    ends in a separator on the empty rest. *)
Lemma IsOid_scan (t : string) :
  snmp.IsOid (String "." t)
  = match snmp.scan "." t with
    | Some l => negb (l =? ".")%char
    | None => false
    end.
Proof.
  unfold snmp.IsOid. rewrite Ascii.eqb_refl. simpl negb. cbv iota.
  destruct t as [|d t]; [reflexivity|].
  replace (length (String "." (String d t)) <? 2)%nat with false by reflexivity.
  destruct (snmp.scan "." (String d t)) as [l|]; [|reflexivity].
  destruct (l =? ".")%char; reflexivity.
Qed.

Lemma IsOid_first (c : ascii) (t : string) :
  snmp.IsOid (String c t) = true -> c = "."%char.
Proof.
  unfold snmp.IsOid. destruct (Ascii.eqb_spec c ".") as [E|E]; [intros _; exact E|].
  discriminate.
Qed.

Lemma IsOid_no_trailing_separator (s : string) : snmp.IsOid (s ++ ".") = false.
Proof.
  destruct (snmp.IsOid (s ++ ".")) eqn:E; [|reflexivity].
  apply IsOid_PathInvariant in E. destruct E as [_ [_ [_ [Hend _]]]].
  exfalso. exact (Hend s eq_refl).
Qed.

Lemma IsOid_split (a r : string) :
  a <> "" ->
  snmp.IsOid (a ++ String "." r) = snmp.IsOid a && snmp.IsOid (String "." r).
Proof.
  intros Ha. destruct a as [|c t]; [contradiction|]. simpl append.
  destruct (Ascii.eqb_spec c ".") as [Ec|Ec].
  - subst c. rewrite !IsOid_scan, scan_app.
    destruct (snmp.scan "." t) as [l|]; [|reflexivity].
    simpl snmp.scan. destruct (l =? ".")%char; reflexivity.
  - destruct (snmp.IsOid (String c (t ++ String "." r))) eqn:E1.
    + apply IsOid_first in E1. contradiction.
    + destruct (snmp.IsOid (String c t)) eqn:E2; [|reflexivity].
      apply IsOid_first in E2. contradiction.
Qed.

(** X1: an OID followed by the text of an OID is an OID, and an OID cut in
    front of one of its separators gives two OIDs: for a non-empty [a],
    [IsOid] of [a] followed by ["." ++ r] is the conjunction of [IsOid a] and
    [IsOid ("." ++ r)]. *)
Theorem IsOid_splits_at_separator (a r : string) :
  a <> "" ->
  snmp.IsOid (a ++ "." ++ r) = snmp.IsOid a && snmp.IsOid ("." ++ r).
Proof.
  exact (IsOid_split a r).
Qed.

Lemma IsOid_splits_at_separator_witness :
  snmp.IsOid (".1.3.6" ++ "." ++ "1.4") = snmp.IsOid ".1.3.6" && snmp.IsOid ("." ++ "1.4").
Proof.
  apply (IsOid_splits_at_separator ".1.3.6" "1.4"). discriminate.
Defined.

(** ** IsOidPartOf as a relation *)

(** Whenever [IsOidPartOf] returns, its answer is the label-boundary
    relation. *)
Lemma IsOidPartOf_returns (oid baseOid : string) (b : bool) :
  snmp.IsOidPartOf oid baseOid = Returns b ->
  (b = true <-> snmp.SubPath oid baseOid).
Proof.
  intros H.
  destruct (snmp.IsOid oid) eqn:Ho; [destruct (snmp.IsOid baseOid) eqn:Hb|].
  - destruct (Nat.le_gt_cases (length baseOid) (length oid)) as [Hlen|Hlen].
    + destruct (IsOidPartOf_longer_child oid baseOid Ho Hb Hlen) as [b' [E Hiff]].
      rewrite E in H. injection H as ->. exact Hiff.
    + rewrite (IsOidPartOf_shorter_child oid baseOid Ho Hb Hlen) in H. discriminate.
  - rewrite IsOidPartOf_invalid in H by (right; exact Hb). injection H as <-.
    split; [discriminate|]. intros [_ [Hb' _]]. rewrite Hb in Hb'. discriminate.
  - rewrite IsOidPartOf_invalid in H by (left; exact Ho). injection H as <-.
    split; [discriminate|]. intros [Ho' _]. rewrite Ho in Ho'. discriminate.
Qed.

Lemma SubPath_length (oid baseOid : string) :
  snmp.SubPath oid baseOid -> length baseOid <= length oid.
Proof.
  intros [_ [_ [E|[r E]]]]; rewrite E; [|rewrite length_append]; lia.
Qed.

Lemma SubPath_returns_true (oid baseOid : string) :
  snmp.SubPath oid baseOid -> snmp.IsOidPartOf oid baseOid = Returns true.
Proof.
  intros H. pose proof (SubPath_length _ _ H) as Hlen.
  destruct H as [Ho [Hb Hrel]].
  destruct (IsOidPartOf_longer_child oid baseOid Ho Hb Hlen) as [b [E Hiff]].
  rewrite E. f_equal. apply Hiff. repeat split; assumption.
Qed.

(** X2: [IsOidPartOf] panics exactly when both arguments are valid OIDs and
    the first is shorter than the second; in every other case it returns. *)
Theorem IsOidPartOf_panics_iff (oid baseOid : string) :
  snmp.IsOidPartOf oid baseOid = Panics <->
  snmp.IsOid oid = true /\ snmp.IsOid baseOid = true /\ length oid < length baseOid.
Proof.
  split.
  - intros H.
    destruct (snmp.IsOid oid) eqn:Ho; [destruct (snmp.IsOid baseOid) eqn:Hb|].
    + destruct (Nat.le_gt_cases (length baseOid) (length oid)) as [Hlen|Hlen].
      * destruct (IsOidPartOf_longer_child oid baseOid Ho Hb Hlen) as [b [E _]].
        rewrite E in H. discriminate.
      * repeat split. exact Hlen.
    + rewrite IsOidPartOf_invalid in H by (right; exact Hb). discriminate.
    + rewrite IsOidPartOf_invalid in H by (left; exact Ho). discriminate.
  - intros [Ho [Hb Hlen]]. exact (IsOidPartOf_shorter_child oid baseOid Ho Hb Hlen).
Qed.

(** X3: whenever [IsOidPartOf] returns, it returns true exactly when both
    arguments are valid OIDs and the first equals the second or continues it
    after a separator; a longer last label ([".1.50"] under [".1.5"]) is not
    a match. *)
Theorem IsOidPartOf_answer (oid baseOid : string) (b : bool) :
  snmp.IsOidPartOf oid baseOid = Returns b ->
  (b = true <->
   snmp.IsOid oid = true /\ snmp.IsOid baseOid = true /\
   (oid = baseOid \/ exists rest, oid = baseOid ++ "." ++ rest)).
Proof.
  exact (IsOidPartOf_returns oid baseOid b).
Qed.

Lemma IsOidPartOf_answer_witness :
  (false = true <->
   snmp.IsOid ".1.50" = true /\ snmp.IsOid ".1.5" = true /\
   (".1.50" = ".1.5" \/ exists rest, ".1.50" = ".1.5" ++ "." ++ rest)).
Proof.
  apply (IsOidPartOf_answer ".1.50" ".1.5" false). reflexivity.
Defined.

(** X4: where it answers true, [IsOidPartOf] is a partial order on valid
    OIDs: every valid OID is part of itself, two OIDs that are part of each
    other are equal, and being part of is transitive (the call on the outer
    pair returns, and returns true). *)
Theorem IsOidPartOf_partial_order :
  (forall p, snmp.IsOid p = true -> snmp.IsOidPartOf p p = Returns true) /\
  (forall a b,
     snmp.IsOidPartOf a b = Returns true ->
     snmp.IsOidPartOf b a = Returns true -> a = b) /\
  (forall a b c,
     snmp.IsOidPartOf a b = Returns true ->
     snmp.IsOidPartOf b c = Returns true ->
     snmp.IsOidPartOf a c = Returns true).
Proof.
  split; [|split].
  - intros p Hp. apply SubPath_returns_true. repeat split; try assumption.
    left; reflexivity.
  - intros a b Hab Hba.
    apply IsOidPartOf_returns in Hab, Hba.
    destruct (proj1 Hab eq_refl) as [_ [_ [E|[r E]]]]; [exact E|].
    pose proof (SubPath_length _ _ (proj1 Hba eq_refl)) as Hlen.
    rewrite E, length_append in Hlen. simpl in Hlen. lia.
  - intros a b c Hab Hbc.
    apply IsOidPartOf_returns in Hab, Hbc.
    destruct (proj1 Hab eq_refl) as [Ha [_ Eab]].
    destruct (proj1 Hbc eq_refl) as [_ [Hc Ebc]].
    apply SubPath_returns_true. repeat split; try assumption.
    destruct Eab as [->|[r1 ->]]; [exact Ebc|].
    destruct Ebc as [->|[r2 ->]].
    + right. exists r1. reflexivity.
    + right. exists (r2 ++ "." ++ r1). now rewrite !append_assoc.
Qed.

Lemma IsOidPartOf_partial_order_witness :
  snmp.IsOidPartOf ".1.3" ".1.3" = Returns true /\
  snmp.IsOidPartOf ".1.3.6.1.2" ".1" = Returns true.
Proof.
  split.
  - apply (proj1 IsOidPartOf_partial_order ".1.3"). reflexivity.
  - apply (proj2 (proj2 IsOidPartOf_partial_order) ".1.3.6.1.2" ".1.3.6" ".1");
      reflexivity.
Defined.

(** ** GetSubOid *)

(** The three ways a call of [GetSubOid] goes. *)
Lemma GetSubOid_cases (oid baseOid : string) :
  (snmp.GetSubOid oid baseOid = Returns "" /\ ~ snmp.SubPath oid baseOid /\
   ~ (snmp.IsOid oid = true /\ snmp.IsOid baseOid = true /\
      length oid < length baseOid)) \/
  (snmp.GetSubOid oid baseOid = Panics /\
   snmp.IsOid oid = true /\ snmp.IsOid baseOid = true /\
   (length oid < length baseOid \/ oid = baseOid)) \/
  (exists rest,
     snmp.GetSubOid oid baseOid = Returns rest /\ rest <> "" /\
     snmp.IsOid oid = true /\ snmp.IsOid baseOid = true /\
     oid = baseOid ++ "." ++ rest).
Proof.
  destruct (snmp.IsOid oid) eqn:Ho; [destruct (snmp.IsOid baseOid) eqn:Hb|].
  - destruct (Nat.le_gt_cases (length baseOid) (length oid)) as [Hlen|Hlen].
    + destruct (IsOidPartOf_longer_child oid baseOid Ho Hb Hlen) as [b [E Hiff]].
      destruct b.
      * destruct (proj1 Hiff eq_refl) as [_ [_ [Eq|[rest Eq]]]].
        -- right; left. subst baseOid.
           split; [exact (GetSubOid_equal_paths oid Ho)|].
           repeat split. right; reflexivity.
        -- right; right. exists rest.
           split; [exact (GetSubOid_strict oid baseOid rest Ho Hb Eq)|].
           split; [|repeat split; assumption].
           intros ->. rewrite Eq in Ho.
           rewrite IsOid_no_trailing_separator in Ho. discriminate.
      * left. split; [|split].
        -- unfold snmp.GetSubOid. rewrite Ho, Hb, E. reflexivity.
        -- intros Hsub. apply Hiff in Hsub. discriminate.
        -- intros [_ [_ Hlt]]. lia.
    + right; left. split; [|repeat split; left; exact Hlen].
      unfold snmp.GetSubOid. rewrite Ho, Hb. simpl.
      now rewrite (IsOidPartOf_shorter_child oid baseOid Ho Hb Hlen).
  - left. split; [|split].
    + unfold snmp.GetSubOid. rewrite Ho, Hb. reflexivity.
    + intros [_ [Hb' _]]. rewrite Hb in Hb'. discriminate.
    + intros [_ [Hb' _]]. discriminate.
  - left. split; [|split].
    + unfold snmp.GetSubOid. rewrite Ho. reflexivity.
    + intros [Ho' _]. rewrite Ho in Ho'. discriminate.
    + intros [Ho' _]. discriminate.
Qed.

(** X5: [GetSubOid] panics exactly when both arguments are valid OIDs and
    the first is shorter than or equal to the second; on every other pair of
    strings it returns. *)
Theorem GetSubOid_panics_iff (oid baseOid : string) :
  snmp.GetSubOid oid baseOid = Panics <->
  snmp.IsOid oid = true /\ snmp.IsOid baseOid = true /\
  (length oid < length baseOid \/ oid = baseOid).
Proof.
  destruct (GetSubOid_cases oid baseOid)
    as [[E [Hn Hs]]|[[E H]|[rest [E [Hr [Ho [Hb Eq]]]]]]].
  - rewrite E. split; [discriminate|].
    intros [Ho [Hb [Hlt|Heq]]]; exfalso.
    + apply Hs. repeat split; assumption.
    + apply Hn. repeat split; try assumption. left; exact Heq.
  - rewrite E. split; [intros _; exact H | reflexivity].
  - rewrite E. split; [discriminate|].
    intros [_ [_ [Hlt|Heq]]]; exfalso.
    + rewrite Eq, length_append in Hlt. lia.
    + apply (f_equal length) in Heq. rewrite Eq, length_append in Heq.
      simpl in Heq. lia.
Qed.

(** X6: a non-empty result of [GetSubOid] is the Row Index of a strict
    sub-path: both arguments are valid OIDs, the first is the second followed
    by a separator and the result, and the result behind a separator is
    itself a valid OID.  The empty result is never the Row Index of a strict
    sub-path, so it cannot be taken for one. *)
Theorem GetSubOid_row_index_round_trip (oid baseOid sub : string) :
  snmp.GetSubOid oid baseOid = Returns sub ->
  (sub <> "" ->
   snmp.IsOid oid = true /\ snmp.IsOid baseOid = true /\
   oid = baseOid ++ "." ++ sub /\ snmp.IsOid ("." ++ sub) = true) /\
  (sub = "" -> ~ snmp.SubPath oid baseOid).
Proof.
  intros H.
  destruct (GetSubOid_cases oid baseOid)
    as [[E [Hn Hs]]|[[E _]|[rest [E [Hr [Ho [Hb Eq]]]]]]];
    rewrite E in H; [injection H as <-|discriminate|injection H as <-].
  - split; [intros Hne; contradiction Hne; reflexivity | intros _; exact Hn].
  - split; [|intros Hs; contradiction].
    intros _. repeat split; try assumption.
    assert (Hbase : baseOid <> "") by (intros ->; discriminate).
    pose proof (IsOid_split baseOid rest Hbase) as Hsplit.
    simpl in Eq. rewrite <- Eq, Ho, Hb in Hsplit. simpl in Hsplit.
    symmetry. exact Hsplit.
Qed.

Lemma GetSubOid_row_index_round_trip_witness :
  ("1.1" <> "" ->
   snmp.IsOid ".1.3.6.1.1.5.1.1" = true /\ snmp.IsOid ".1.3.6.1.1.5" = true /\
   ".1.3.6.1.1.5.1.1" = ".1.3.6.1.1.5" ++ "." ++ "1.1" /\
   snmp.IsOid ("." ++ "1.1") = true) /\
  ("1.1" = "" -> ~ snmp.SubPath ".1.3.6.1.1.5.1.1" ".1.3.6.1.1.5").
Proof.
  apply (GetSubOid_row_index_round_trip ".1.3.6.1.1.5.1.1" ".1.3.6.1.1.5" "1.1").
  reflexivity.
Defined.

(** X7: the other direction of the round trip: for a valid base OID and a
    valid OID made of the base, a separator and [rest], [GetSubOid] returns
    [rest], and putting it back behind the base gives the OID again. *)
Theorem GetSubOid_of_extension (baseOid rest : string) :
  snmp.IsOid baseOid = true ->
  snmp.IsOid (baseOid ++ "." ++ rest) = true ->
  snmp.GetSubOid (baseOid ++ "." ++ rest) baseOid = Returns rest /\
  and_then (snmp.GetSubOid (baseOid ++ "." ++ rest) baseOid)
           (fun sub => Returns (baseOid ++ "." ++ sub))
  = Returns (baseOid ++ "." ++ rest).
Proof.
  intros Hb Ho.
  rewrite (GetSubOid_strict (baseOid ++ "." ++ rest) baseOid rest Ho Hb eq_refl).
  split; reflexivity.
Qed.

Lemma GetSubOid_of_extension_witness :
  snmp.GetSubOid (".1.3.6.1.4.1.232.3.2.5.1.1.51" ++ "." ++ "0.9")
                 ".1.3.6.1.4.1.232.3.2.5.1.1.51" = Returns "0.9" /\
  and_then (snmp.GetSubOid (".1.3.6.1.4.1.232.3.2.5.1.1.51" ++ "." ++ "0.9")
                           ".1.3.6.1.4.1.232.3.2.5.1.1.51")
           (fun sub => Returns (".1.3.6.1.4.1.232.3.2.5.1.1.51" ++ "." ++ sub))
  = Returns (".1.3.6.1.4.1.232.3.2.5.1.1.51" ++ "." ++ "0.9").
Proof.
  apply (GetSubOid_of_extension ".1.3.6.1.4.1.232.3.2.5.1.1.51" "0.9"); reflexivity.
Defined.

(** ** SetVersion *)

(** X8: [SetVersion] returns nil exactly for the selectors "1", "2" and
    "2c"; whatever the selector, it leaves the target, community, timeout
    and retries of the client as they were; a selector other than "1", "2",
    "2c" and "3" leaves the whole client as it was; and calling it again
    with the same selector changes nothing more. *)
Theorem SetVersion_effect (client : snmp.GoSNMP) (selector : string) :
  (snd (snmp.SetVersion client selector) = None <->
   selector = "1" \/ selector = "2" \/ selector = "2c") /\
  (snmp.Target (fst (snmp.SetVersion client selector)) = snmp.Target client /\
   snmp.Community (fst (snmp.SetVersion client selector)) = snmp.Community client /\
   snmp.Timeout (fst (snmp.SetVersion client selector)) = snmp.Timeout client /\
   snmp.Retries (fst (snmp.SetVersion client selector)) = snmp.Retries client) /\
  (selector <> "1" /\ selector <> "2" /\ selector <> "2c" /\ selector <> "3" ->
   fst (snmp.SetVersion client selector) = client) /\
  snmp.SetVersion (fst (snmp.SetVersion client selector)) selector
  = snmp.SetVersion client selector.
Proof.
  unfold snmp.SetVersion.
  destruct (String.eqb_spec selector "1") as [E1|E1];
    [|destruct (String.eqb_spec selector "2") as [E2|E2];
      [|destruct (String.eqb_spec selector "2c") as [E2c|E2c];
        [|destruct (String.eqb_spec selector "3") as [E3|E3]]]];
    simpl; (split; [split|split; [repeat split|split]]);
    try reflexivity; try discriminate; try tauto;
    try (intros [?|[?|?]]; contradiction).
Qed.

(** ** Runs in general *)

Section TraceLemmas.

Context {E : Type}.
Variable P : E -> bool.

Lemma trace_only_ret {A : Type} (a : A) : trace.only P (trace.ret a : trace.Trace E A).
Proof. reflexivity. Qed.

Lemma trace_only_halt {A : Type} (h : halt) :
  trace.only P (([], Halt h) : trace.Trace E A).
Proof. reflexivity. Qed.

Lemma trace_only_emit (e : E) : P e = true -> trace.only P (trace.emit e).
Proof. unfold trace.only; simpl. intros ->. reflexivity. Qed.

Lemma trace_only_check_err (err : error) :
  trace.only P (trace.check_err err : trace.Trace E unit).
Proof. destruct err; reflexivity. Qed.

Lemma trace_only_check_result {A : Type} (r : result A) :
  trace.only P (trace.check_result r : trace.Trace E A).
Proof. destruct r; reflexivity. Qed.

Lemma trace_only_bind {A B : Type} (m : trace.Trace E A) (k : A -> trace.Trace E B) :
  trace.only P m -> (forall a, trace.only P (k a)) -> trace.only P (trace.bind m k).
Proof.
  unfold trace.only. destruct m as [tr [a|h]]; simpl; intros Hm Hk; [|exact Hm].
  specialize (Hk a). destruct (k a) as [tr' s]. simpl in *.
  rewrite forallb_app, Hm, Hk. reflexivity.
Qed.

(** A piece that continues, followed by the rest of the program. *)
Lemma trace_bind_continue {A B : Type} (tr : list E) (a : A)
    (k : A -> trace.Trace E B) (m : trace.Trace E A) :
  m = (tr, Continue a) ->
  trace.bind m k = ((tr ++ fst (k a))%list, snd (k a)).
Proof.
  intros ->. simpl. destruct (k a); reflexivity.
Qed.

End TraceLemmas.

(** ** The loops of [main] *)

(** The controller loop of the later [main] evaluates every controller once,
    in slice order, adds each result in that order and counts them. *)
Lemma firmware_range_controllers (C : Type) (w : check_hp_firmware.World C)
    (controllers : list C) : forall overall count,
  check_hp_firmware.range_controllers C w controllers overall count
  = (map EvControllerStatus controllers,
     Continue
       (nagios.AddAll overall
          (map (check_hp_firmware.controller_GetNagiosStatus C w) controllers),
        (count + Z.of_nat (List.length controllers))%Z)).
Proof.
  induction controllers as [|c cs IH]; intros overall count.
  - simpl. unfold ret. now rewrite Z.add_0_r.
  - cbn [check_hp_firmware.range_controllers map].
    destruct (check_hp_firmware.controller_GetNagiosStatus C w c) as [s d] eqn:Ec.
    rewrite IH. unfold nagios.AddAll. cbn -[Z.add Z.of_nat].
    do 3 f_equal. lia.
Qed.

Lemma firmware_range_drives (C : Type) (w : check_hp_firmware.World C)
    (drives : list phy_drv.PhysicalDrive) : forall overall count,
  check_hp_firmware.range_drives C w drives overall count
  = (map EvDriveStatus drives,
     Continue
       (nagios.AddAll overall
          (map (check_hp_firmware.drive_GetNagiosStatus C w) drives),
        (count + Z.of_nat (List.length drives))%Z)).
Proof.
  induction drives as [|d ds IH]; intros overall count.
  - simpl. unfold ret. now rewrite Z.add_0_r.
  - cbn [check_hp_firmware.range_drives map].
    destruct (check_hp_firmware.drive_GetNagiosStatus C w d) as [s m] eqn:Ed.
    rewrite IH. unfold nagios.AddAll. cbn -[Z.add Z.of_nat].
    do 3 f_equal. lia.
Qed.

Lemma disk_range_drives (w : check_hp_disk_firmware.World)
    (drives : list phy_drv.PhysicalDrive) : forall overall,
  check_hp_disk_firmware.range_drives w drives overall
  = (map EvDriveStatus drives,
     Continue
       (nagios.AddAll overall
          (map (check_hp_disk_firmware.GetNagiosStatus w) drives))).
Proof.
  induction drives as [|d ds IH]; intros overall.
  - reflexivity.
  - cbn [check_hp_disk_firmware.range_drives map].
    destruct (check_hp_disk_firmware.GetNagiosStatus w d) as [s m] eqn:Ed.
    rewrite IH. unfold nagios.AddAll. cbn. reflexivity.
Qed.

Lemma AddAll_app (o : nagios.Overall) (l1 l2 : list (nagios.Severity * string)) :
  nagios.AddAll o (l1 ++ l2) = nagios.AddAll (nagios.AddAll o l1) l2.
Proof. unfold nagios.AddAll. apply fold_left_app. Qed.

(** ** Complete runs *)

Lemma firmware_main_check_run (C : Type) (w : check_hp_firmware.World C)
    (cntlrTable : cntlr.CpqDaCntlrTable) (driveTable : phy_drv.CpqDaPhyDrvTable)
    (controllers : list C) (drives : list phy_drv.PhysicalDrive) :
  Values (cntlr.Snmp cntlrTable) <> [] ->
  check_hp_firmware.GetControllersFromTable C w cntlrTable = Ok controllers ->
  Values (phy_drv.Snmp driveTable) <> [] ->
  check_hp_firmware.GetPhysicalDrivesFromTable C w driveTable = Ok drives ->
  exists summary,
    check_hp_firmware.main_check C w (cntlrTable, driveTable)
    = ((EvExtractControllers :: EvExtractDrives
          :: map EvControllerStatus controllers ++ map EvDriveStatus drives)%list,
       Halt (Exited
               (nagios.rc
                  (nagios.GetStatus
                     (nagios.AddAll nagios.empty
                        (map (check_hp_firmware.controller_GetNagiosStatus C w) controllers
                         ++ map (check_hp_firmware.drive_GetNagiosStatus C w) drives)%list)))
               (nagios.GetOutput
                  (nagios.set_Summary
                     (nagios.AddAll nagios.empty
                        (map (check_hp_firmware.controller_GetNagiosStatus C w) controllers
                         ++ map (check_hp_firmware.drive_GetNagiosStatus C w) drives)%list)
                     summary)))) /\
    (nagios.GetStatus
       (nagios.AddAll nagios.empty
          (map (check_hp_firmware.controller_GetNagiosStatus C w) controllers
           ++ map (check_hp_firmware.drive_GetNagiosStatus C w) drives)%list) = nagios.OK ->
     summary = "All " ++ fmt_d (Z.of_nat (List.length controllers))
                ++ " controllers and " ++ fmt_d (Z.of_nat (List.length drives))
                ++ " drives seem fine").
Proof.
  intros Hc He Hd Hx. unfold check_hp_firmware.main_check.
  destruct (Values (cntlr.Snmp cntlrTable)) as [|crow crows]; [contradiction|].
  destruct (Values (phy_drv.Snmp driveTable)) as [|drow drows]; [contradiction|].
  rewrite He, Hx. cbn [List.length Nat.eqb ret bind emit check_result app fst snd].
  rewrite firmware_range_controllers.
  cbn [bind]. rewrite firmware_range_drives. rewrite <- AddAll_app.
  cbn [bind nagios_Exit app Z.add]. rewrite app_nil_r.
  eexists. split; [reflexivity|].
  intros Hok. rewrite Hok. reflexivity.
Qed.

(** X9: a run of the later [main] that gets both tables with rows and both
    record lists extracts the controllers, then the drives, then evaluates
    every controller once in slice order and after them every drive once in
    slice order; it ends through [nagios.Exit] with the status of the
    aggregator fed in that order, and when that status is OK the summary
    counts exactly the extracted controllers and drives. *)
Theorem firmware_complete_run
    (C : Type) (w : check_hp_firmware.World C) (tr : list (event C))
    (cntlrTable : cntlr.CpqDaCntlrTable) (driveTable : phy_drv.CpqDaPhyDrvTable)
    (controllers : list C) (drives : list phy_drv.PhysicalDrive) :
  check_hp_firmware.main_load C w = (tr, Continue (cntlrTable, driveTable)) ->
  Values (cntlr.Snmp cntlrTable) <> [] ->
  check_hp_firmware.GetControllersFromTable C w cntlrTable = Ok controllers ->
  Values (phy_drv.Snmp driveTable) <> [] ->
  check_hp_firmware.GetPhysicalDrivesFromTable C w driveTable = Ok drives ->
  fst (check_hp_firmware.main C w)
  = (tr ++ EvExtractControllers :: EvExtractDrives
        :: map EvControllerStatus controllers ++ map EvDriveStatus drives)%list /\
  exists summary,
    snd (check_hp_firmware.main C w)
    = Halt (Exited
              (nagios.rc
                 (nagios.GetStatus
                    (nagios.AddAll nagios.empty
                       (map (check_hp_firmware.controller_GetNagiosStatus C w) controllers
                        ++ map (check_hp_firmware.drive_GetNagiosStatus C w) drives)%list)))
              (nagios.GetOutput
                 (nagios.set_Summary
                    (nagios.AddAll nagios.empty
                       (map (check_hp_firmware.controller_GetNagiosStatus C w) controllers
                        ++ map (check_hp_firmware.drive_GetNagiosStatus C w) drives)%list)
                    summary))) /\
    (nagios.GetStatus
       (nagios.AddAll nagios.empty
          (map (check_hp_firmware.controller_GetNagiosStatus C w) controllers
           ++ map (check_hp_firmware.drive_GetNagiosStatus C w) drives)%list) = nagios.OK ->
     summary = "All " ++ fmt_d (Z.of_nat (List.length controllers))
                ++ " controllers and " ++ fmt_d (Z.of_nat (List.length drives))
                ++ " drives seem fine").
Proof.
  intros Hload Hc He Hd Hx.
  destruct (firmware_main_check_run C w cntlrTable driveTable controllers drives
              Hc He Hd Hx) as [summary [Hrun Hsum]].
  unfold check_hp_firmware.main.
  rewrite (bind_continue tr _ _ _ Hload), Hrun. simpl fst. simpl snd.
  split; [reflexivity|]. exists summary. split; [reflexivity | exact Hsum].
Qed.

Lemma firmware_complete_run_witness :
  fst (check_hp_firmware.main string
         (check_hp_firmware.file_world check_hp_firmware.one_controller_table
                                       check_hp_firmware.one_drive_table))
  = ([EvOpen "walk.txt"; EvLoadControllers; EvSeek; EvLoadDrives]
     ++ EvExtractControllers :: EvExtractDrives
        :: map EvControllerStatus ["0"] ++ map EvDriveStatus [phy_drv.test_drive])%list.
Proof.
  exact (proj1 (firmware_complete_run string
                  (check_hp_firmware.file_world check_hp_firmware.one_controller_table
                                                check_hp_firmware.one_drive_table)
                  [EvOpen "walk.txt"; EvLoadControllers; EvSeek; EvLoadDrives]
                  check_hp_firmware.one_controller_table
                  check_hp_firmware.one_drive_table
                  ["0"] [phy_drv.test_drive]
                  eq_refl ltac:(discriminate) eq_refl ltac:(discriminate) eq_refl)).
Defined.

(** X10: in the later [main] an error of an extractor ends the run with
    that error and nothing is evaluated: an error for the controllers comes
    before the drive table is even looked at, and an error for the drives
    discards the controllers already extracted. *)
Theorem firmware_extraction_error_is_fatal
    (C : Type) (w : check_hp_firmware.World C) (tr : list (event C))
    (cntlrTable : cntlr.CpqDaCntlrTable) (driveTable : phy_drv.CpqDaPhyDrvTable)
    (e : string) :
  check_hp_firmware.main_load C w = (tr, Continue (cntlrTable, driveTable)) ->
  Values (cntlr.Snmp cntlrTable) <> [] ->
  (check_hp_firmware.GetControllersFromTable C w cntlrTable = Err e ->
   check_hp_firmware.main C w
   = ((tr ++ [EvExtractControllers])%list, Halt (ExitedError e))) /\
  (forall controllers,
     check_hp_firmware.GetControllersFromTable C w cntlrTable = Ok controllers ->
     Values (phy_drv.Snmp driveTable) <> [] ->
     check_hp_firmware.GetPhysicalDrivesFromTable C w driveTable = Err e ->
     check_hp_firmware.main C w
     = ((tr ++ [EvExtractControllers; EvExtractDrives])%list, Halt (ExitedError e))).
Proof.
  intros Hload Hc. unfold check_hp_firmware.main.
  rewrite (bind_continue tr _ _ _ Hload). unfold check_hp_firmware.main_check.
  destruct (Values (cntlr.Snmp cntlrTable)) as [|crow crows]; [contradiction|].
  split.
  - intros He. rewrite He. reflexivity.
  - intros controllers He Hd Hx.
    destruct (Values (phy_drv.Snmp driveTable)) as [|drow drows]; [contradiction|].
    rewrite He, Hx. reflexivity.
Qed.

Lemma firmware_extraction_error_is_fatal_witness :
  check_hp_firmware.main string unreadable_drives_world
  = (([EvOpen "walk.txt"; EvLoadControllers; EvSeek; EvLoadDrives]
      ++ [EvExtractControllers; EvExtractDrives])%list,
     Halt (ExitedError "unexpected value")).
Proof.
  apply (proj2 (firmware_extraction_error_is_fatal string unreadable_drives_world
                  [EvOpen "walk.txt"; EvLoadControllers; EvSeek; EvLoadDrives]
                  check_hp_firmware.one_controller_table
                  check_hp_firmware.one_drive_table
                  "unexpected value" eq_refl ltac:(discriminate))
           ["0"]).
  - reflexivity.
  - discriminate.
  - reflexivity.
Defined.

(** X11: a run of main.go that gets a drive table with rows and the drive
    list extracts the drives, evaluates every drive once in slice order and
    ends through [nagios.Exit] with the status of the aggregator fed in that
    order; the summary line is one of the three fixed texts of main.go, or
    empty.  An error of the extractor ends the run with that error and
    nothing is evaluated. *)
Theorem disk_complete_run
    (w : check_hp_disk_firmware.World)
    (tr : list (event check_hp_disk_firmware.NoController))
    (table : phy_drv.CpqDaPhyDrvTable) :
  check_hp_disk_firmware.main_load w = (tr, Continue table) ->
  Values (phy_drv.Snmp table) <> [] ->
  (forall drives,
     check_hp_disk_firmware.GetPhysicalDrivesFromTable w table = Ok drives ->
     fst (check_hp_disk_firmware.main w)
     = (tr ++ EvExtractDrives :: map EvDriveStatus drives)%list /\
     exists summary,
       snd (check_hp_disk_firmware.main w)
       = Halt (Exited
                 (nagios.rc
                    (nagios.GetStatus
                       (nagios.AddAll nagios.empty
                          (map (check_hp_disk_firmware.GetNagiosStatus w) drives))))
                 (nagios.GetOutput
                    (nagios.set_Summary
                       (nagios.AddAll nagios.empty
                          (map (check_hp_disk_firmware.GetNagiosStatus w) drives))
                       summary))) /\
       In summary ["All drives seem fine"; "Found warnings for drives";
                   "Found critical problems on drives"; ""]) /\
  (forall e,
     check_hp_disk_firmware.GetPhysicalDrivesFromTable w table = Err e ->
     check_hp_disk_firmware.main w
     = ((tr ++ [EvExtractDrives])%list, Halt (ExitedError e))).
Proof.
  intros Hload Hd. unfold check_hp_disk_firmware.main.
  rewrite (bind_continue tr _ _ _ Hload).
  unfold check_hp_disk_firmware.main_check, ListIds.
  destruct (Values (phy_drv.Snmp table)) as [|row rows]; [contradiction|].
  split.
  - intros drives Hx. rewrite Hx.
    cbn [map List.length Nat.eqb ret bind emit check_result app fst snd].
    rewrite disk_range_drives. cbn [bind nagios_Exit app fst snd].
    rewrite app_nil_r. split; [reflexivity|].
    eexists. split; [reflexivity|].
    destruct (nagios.GetStatus _); simpl; tauto.
  - intros e Hx. rewrite Hx. reflexivity.
Qed.

Lemma disk_complete_run_witness :
  fst (check_hp_disk_firmware.main
         (check_hp_disk_firmware.sample_world disk_file_flags
            check_hp_firmware.one_drive_table))
  = ([EvOpen "walk.txt"; EvLoadDrives]
     ++ EvExtractDrives :: map EvDriveStatus [phy_drv.test_drive])%list.
Proof.
  exact (proj1 (proj1 (disk_complete_run
                         (check_hp_disk_firmware.sample_world disk_file_flags
                            check_hp_firmware.one_drive_table)
                         [EvOpen "walk.txt"; EvLoadDrives]
                         check_hp_firmware.one_drive_table
                         eq_refl ltac:(discriminate))
                  [phy_drv.test_drive] eq_refl)).
Defined.

(** ** The two ways to get the tables *)


Lemma only_map {C A : Type} (P : event C -> bool) (f : A -> event C) (l : list A) :
  (forall a, P (f a) = true) -> forallb P (map f l) = true.
Proof.
  intros H. induction l as [|a l IH]; simpl; [reflexivity|].
  now rewrite H, IH.
Qed.


Lemma firmware_main_check_only (C : Type) (P : event C -> bool)
    (w : check_hp_firmware.World C)
    (tables : cntlr.CpqDaCntlrTable * phy_drv.CpqDaPhyDrvTable) :
  P EvExtractControllers = true -> P EvExtractDrives = true ->
  (forall c, P (EvControllerStatus c) = true) ->
  (forall d, P (EvDriveStatus d) = true) ->
  only P (check_hp_firmware.main_check C w tables).
Proof.
  intros Hxc Hxd Hc Hd. destruct tables as [cntlrTable driveTable].
  unfold check_hp_firmware.main_check.
  apply only_bind; [destruct (_ =? _)%nat; only_steps|intros _].
  apply only_bind; [apply only_emit; exact Hxc|intros _].
  apply only_bind; [apply only_check_result|intros controllers].
  apply only_bind; [destruct (_ =? _)%nat; only_steps|intros _].
  apply only_bind; [apply only_emit; exact Hxd|intros _].
  apply only_bind; [apply only_check_result|intros drives].
  apply only_bind.
  { rewrite firmware_range_controllers. unfold only. simpl. apply only_map. exact Hc. }
  intros [overall countControllers].
  apply only_bind; [|intros [overall' countDrives]; apply only_halt].
  rewrite firmware_range_drives. unfold only. simpl. apply only_map. exact Hd.
Qed.




(** X13: the later [main] gets its tables either from the capture file or
    from the device, never from both: with a file name no run connects to or
    walks a device, without one no run opens, reads or rewinds a file; and
    without a file name an error of [VersionFromString] ends the run with
    that error before any event. *)
Theorem firmware_file_or_device
    (C : Type) (w : check_hp_firmware.World C) (f : Flags) :
  check_hp_firmware.args C w = Parsed f ->
  (snmpwalk_file f <> "" ->
   only (fun e => negb (uses_network e)) (check_hp_firmware.main C w)) /\
  (snmpwalk_file f = "" ->
   only (fun e => negb (reads_file e)) (check_hp_firmware.main C w) /\
   (forall e,
      show_version f = false ->
      check_hp_firmware.VersionFromString C w (protocol f) = Err e ->
      check_hp_firmware.main C w = ([], Halt (ExitedError e)))).
Proof.
  intros Hargs. split.
  - intros Hfile. apply String.eqb_neq in Hfile.
    unfold check_hp_firmware.main.
    apply only_bind; [|intros tables; apply firmware_main_check_only; reflexivity].
    unfold check_hp_firmware.main_load. rewrite Hargs, Hfile.
    destruct (show_version f); only_steps.
  - intros Hfile. split.
    + unfold check_hp_firmware.main.
      apply only_bind; [|intros tables; apply firmware_main_check_only; reflexivity].
      unfold check_hp_firmware.main_load. rewrite Hargs, Hfile.
      destruct (show_version f); only_steps.
    + intros e Hv He. unfold check_hp_firmware.main, check_hp_firmware.main_load.
      rewrite Hargs, Hfile, Hv, He. reflexivity.
Qed.

Lemma firmware_file_or_device_witness :
  only (fun e => negb (uses_network e))
    (check_hp_firmware.main string
       (check_hp_firmware.file_world check_hp_firmware.one_controller_table
                                     check_hp_firmware.one_drive_table)).
Proof.
  apply (proj1 (firmware_file_or_device string
                  (check_hp_firmware.file_world check_hp_firmware.one_controller_table
                                                check_hp_firmware.one_drive_table)
                  check_hp_firmware.file_flags eq_refl)).
  discriminate.
Defined.

(** ** The check with the iLO version *)

Ltac trace_only_steps :=
  repeat first
    [ apply trace_only_ret | apply trace_only_halt | apply trace_only_check_err
    | apply trace_only_check_result | apply trace_only_emit; reflexivity
    | apply trace_only_bind; [|intros ?] ].

Lemma ilo_range_controllers (C I : Type) (w : check_hp_firmware_ilo.World C I)
    (controllers : list C) : forall overall count,
  check_hp_firmware_ilo.range_controllers C I w controllers overall count
  = (map check_hp_firmware_ilo.EvControllerStatus controllers,
     Continue
       (nagios.AddAll overall
          (map (check_hp_firmware_ilo.controller_GetNagiosStatus C I w) controllers),
        (count + Z.of_nat (List.length controllers))%Z)).
Proof.
  induction controllers as [|c cs IH]; intros overall count.
  - simpl. unfold trace.ret. now rewrite Z.add_0_r.
  - cbn [check_hp_firmware_ilo.range_controllers map].
    destruct (check_hp_firmware_ilo.controller_GetNagiosStatus C I w c) as [s d] eqn:Ec.
    rewrite IH. unfold nagios.AddAll. cbn -[Z.add Z.of_nat].
    do 3 f_equal. lia.
Qed.

Lemma ilo_range_drives (C I : Type) (w : check_hp_firmware_ilo.World C I)
    (drives : list phy_drv.PhysicalDrive) : forall overall count,
  check_hp_firmware_ilo.range_drives C I w drives overall count
  = (map check_hp_firmware_ilo.EvDriveStatus drives,
     Continue
       (nagios.AddAll overall
          (map (check_hp_firmware_ilo.drive_GetNagiosStatus C I w) drives),
        (count + Z.of_nat (List.length drives))%Z)).
Proof.
  induction drives as [|d ds IH]; intros overall count.
  - simpl. unfold trace.ret. now rewrite Z.add_0_r.
  - cbn [check_hp_firmware_ilo.range_drives map].
    destruct (check_hp_firmware_ilo.drive_GetNagiosStatus C I w d) as [s m] eqn:Ed.
    rewrite IH. unfold nagios.AddAll. cbn -[Z.add Z.of_nat].
    do 3 f_equal. lia.
Qed.

Lemma trace_only_map {E A : Type} (P : E -> bool) (f : A -> E) (l : list A) :
  (forall a, P (f a) = true) -> forallb P (map f l) = true.
Proof.
  intros H. induction l as [|a l IH]; simpl; [reflexivity|].
  now rewrite H, IH.
Qed.

(** Getting the handler and the tables does not concern the iLO. *)
Lemma ilo_main_load_no_ilo (C I : Type) (w : check_hp_firmware_ilo.World C I) :
  trace.only (fun e => negb (check_hp_firmware_ilo.is_ilo e))
    (check_hp_firmware_ilo.main_load C I w).
Proof.
  unfold check_hp_firmware_ilo.main_load, check_hp_firmware_ilo.main_client.
  destruct (check_hp_firmware_ilo.args C I w) as [err isHelp|f].
  - destruct isHelp; trace_only_steps.
  - destruct (show_version f), (negb (snmpwalk_file f =? "")); trace_only_steps.
Qed.

Lemma ilo_main_load_no_status (C I : Type) (w : check_hp_firmware_ilo.World C I) :
  trace.only (fun e => negb (check_hp_firmware_ilo.is_status e))
    (check_hp_firmware_ilo.main_load C I w).
Proof.
  unfold check_hp_firmware_ilo.main_load, check_hp_firmware_ilo.main_client.
  destruct (check_hp_firmware_ilo.args C I w) as [err isHelp|f].
  - destruct isHelp; trace_only_steps.
  - destruct (show_version f), (negb (snmpwalk_file f =? "")); trace_only_steps.
Qed.

(** X14: the first [main] of the later program does not consult the iLO
    when the flag ignore-ilo-version is set, and it does not consult it
    either when the controller table or the drive table has no rows: the
    empty table ends the run before the iLO check. *)
Theorem ilo_not_consulted (C I : Type) (w : check_hp_firmware_ilo.World C I) :
  (check_hp_firmware_ilo.ignoreIlo C I w = true ->
   trace.only (fun e => negb (check_hp_firmware_ilo.is_ilo e))
     (check_hp_firmware_ilo.main C I w)) /\
  (forall tr client cntlrTable driveTable,
     check_hp_firmware_ilo.main_load C I w
     = (tr, Continue (client, cntlrTable, driveTable)) ->
     Values (cntlr.Snmp cntlrTable) = [] \/ Values (phy_drv.Snmp driveTable) = [] ->
     trace.only (fun e => negb (check_hp_firmware_ilo.is_ilo e))
       (check_hp_firmware_ilo.main C I w)).
Proof.
  split.
  - intros Hign. unfold check_hp_firmware_ilo.main.
    apply trace_only_bind; [apply ilo_main_load_no_ilo|].
    intros [[client cntlrTable] driveTable].
    unfold check_hp_firmware_ilo.main_check.
    apply trace_only_bind; [destruct (_ =? _)%nat; trace_only_steps|intros _].
    apply trace_only_bind; [apply trace_only_emit; reflexivity|intros _].
    apply trace_only_bind; [apply trace_only_check_result|intros controllers].
    apply trace_only_bind; [destruct (_ =? _)%nat; trace_only_steps|intros _].
    apply trace_only_bind; [apply trace_only_emit; reflexivity|intros _].
    apply trace_only_bind; [apply trace_only_check_result|intros drives].
    apply trace_only_bind.
    { unfold check_hp_firmware_ilo.check_ilo. rewrite Hign. apply trace_only_ret. }
    intros overall.
    apply trace_only_bind.
    { rewrite ilo_range_controllers. unfold trace.only. simpl.
      apply trace_only_map. reflexivity. }
    intros [overall' countControllers].
    apply trace_only_bind; [|intros [overall'' countDrives]; apply trace_only_halt].
    rewrite ilo_range_drives. unfold trace.only. simpl.
    apply trace_only_map. reflexivity.
  - intros tr client cntlrTable driveTable Hload Hempty.
    pose proof (ilo_main_load_no_ilo C I w) as Hq.
    unfold trace.only in Hq. rewrite Hload in Hq. simpl in Hq.
    unfold check_hp_firmware_ilo.main.
    rewrite (trace_bind_continue tr _ _ _ Hload).
    unfold trace.only. simpl fst. rewrite forallb_app, Hq. simpl.
    change (trace.only (fun e => negb (check_hp_firmware_ilo.is_ilo e))
              (check_hp_firmware_ilo.main_check C I w (client, cntlrTable, driveTable))).
    unfold check_hp_firmware_ilo.main_check.
    destruct (Values (cntlr.Snmp cntlrTable)) as [|crow crows] eqn:Ec;
      [reflexivity|].
    destruct Hempty as [Hempty|Hempty]; [discriminate|].
    rewrite Hempty.
    apply trace_only_bind; [apply trace_only_ret|intros _].
    apply trace_only_bind; [apply trace_only_emit; reflexivity|intros _].
    apply trace_only_bind; [apply trace_only_check_result|intros controllers].
    reflexivity.
Qed.

Lemma ilo_not_consulted_witness :
  trace.only (fun e => negb (check_hp_firmware_ilo.is_ilo e))
    (check_hp_firmware_ilo.main string string
       (check_hp_firmware_ilo.file_world true check_hp_firmware.one_controller_table
          check_hp_firmware.one_drive_table (Ok "2.10"))) /\
  trace.only (fun e => negb (check_hp_firmware_ilo.is_ilo e))
    (check_hp_firmware_ilo.main string string
       (check_hp_firmware_ilo.file_world false check_hp_firmware.no_controller_table
          check_hp_firmware.one_drive_table (Ok "2.10"))).
Proof.
  split.
  - apply (proj1 (ilo_not_consulted string string
                    (check_hp_firmware_ilo.file_world true
                       check_hp_firmware.one_controller_table
                       check_hp_firmware.one_drive_table (Ok "2.10")))).
    reflexivity.
  - apply (proj2 (ilo_not_consulted string string
                    (check_hp_firmware_ilo.file_world false
                       check_hp_firmware.no_controller_table
                       check_hp_firmware.one_drive_table (Ok "2.10")))
             [check_hp_firmware_ilo.EvNewFileHandler "walk.txt";
              check_hp_firmware_ilo.EvConnect ConnectDefault
                (check_hp_firmware_ilo.FileHandler "walk.txt");
              check_hp_firmware_ilo.EvWalkControllers;
              check_hp_firmware_ilo.EvWalkDrives]
             (check_hp_firmware_ilo.FileHandler "walk.txt")
             check_hp_firmware.no_controller_table
             check_hp_firmware.one_drive_table).
    + reflexivity.
    + left. reflexivity.
Defined.

(** What [main] does after the tables, when both have rows and both record
    lists are extracted. *)
Lemma ilo_main_check_run (C I : Type) (w : check_hp_firmware_ilo.World C I)
    (client : check_hp_firmware_ilo.Handler)
    (cntlrTable : cntlr.CpqDaCntlrTable) (driveTable : phy_drv.CpqDaPhyDrvTable)
    (controllers : list C) (drives : list phy_drv.PhysicalDrive) :
  Values (cntlr.Snmp cntlrTable) <> [] ->
  check_hp_firmware_ilo.GetControllersFromTable C I w cntlrTable = Ok controllers ->
  Values (phy_drv.Snmp driveTable) <> [] ->
  check_hp_firmware_ilo.GetPhysicalDrivesFromTable C I w driveTable = Ok drives ->
  check_hp_firmware_ilo.main_check C I w (client, cntlrTable, driveTable)
  = trace.bind
      (trace.bind (trace.emit check_hp_firmware_ilo.EvExtractControllers)
         (fun _ => trace.emit check_hp_firmware_ilo.EvExtractDrives))
      (fun _ =>
         trace.bind (check_hp_firmware_ilo.check_ilo C I w client nagios.empty)
           (fun overall =>
              let ov :=
                nagios.AddAll overall
                  (map (check_hp_firmware_ilo.controller_GetNagiosStatus C I w) controllers
                   ++ map (check_hp_firmware_ilo.drive_GetNagiosStatus C I w) drives)%list in
              ((map check_hp_firmware_ilo.EvControllerStatus controllers
                ++ map check_hp_firmware_ilo.EvDriveStatus drives)%list,
               Halt (Exited (nagios.rc (nagios.GetStatus ov))
                       (nagios.GetOutput
                          (nagios.set_Summary ov
                             match nagios.GetStatus ov with
                             | nagios.OK =>
                                 "All " ++ fmt_d (Z.of_nat (List.length controllers))
                                   ++ " controllers and "
                                   ++ fmt_d (Z.of_nat (List.length drives))
                                   ++ " drives seem fine"
                             | nagios.Warning =>
                                 "Found " ++ fmt_d (Z.of_nat (nagios.Warnings ov))
                                   ++ " warnings"
                             | nagios.Critical =>
                                 "Found " ++ fmt_d (Z.of_nat (nagios.Criticals ov))
                                   ++ " critical problems"
                             | nagios.Unknown => ""
                             end)))))).
Proof.
  intros Hc He Hd Hx. unfold check_hp_firmware_ilo.main_check.
  destruct (Values (cntlr.Snmp cntlrTable)) as [|crow crows]; [contradiction|].
  destruct (Values (phy_drv.Snmp driveTable)) as [|drow drows]; [contradiction|].
  rewrite He, Hx.
  cbn [List.length Nat.eqb trace.ret trace.bind trace.emit trace.check_result app fst snd].
  destruct (check_hp_firmware_ilo.check_ilo C I w client nagios.empty)
    as [tri [overall|h]]; [|reflexivity].
  cbn [trace.bind]. rewrite ilo_range_controllers.
  cbn [trace.bind]. rewrite ilo_range_drives. rewrite <- AddAll_app.
  cbn [trace.bind trace.nagios_Exit app Z.add]. rewrite app_nil_r.
  reflexivity.
Qed.

(** X15: a run of the first [main] of the later program that gets both
    tables with rows and both record lists evaluates, when the iLO is not
    ignored and answers, the iLO first, then every controller and then every
    drive, each once and in slice order, and ends through [nagios.Exit] with
    the status of the aggregator fed in that order; with the flag
    ignore-ilo-version the run is the same without the iLO. *)
Theorem ilo_complete_run
    (C I : Type) (w : check_hp_firmware_ilo.World C I)
    (tr : list (check_hp_firmware_ilo.event C I))
    (client : check_hp_firmware_ilo.Handler)
    (cntlrTable : cntlr.CpqDaCntlrTable) (driveTable : phy_drv.CpqDaPhyDrvTable)
    (controllers : list C) (drives : list phy_drv.PhysicalDrive) :
  check_hp_firmware_ilo.main_load C I w
  = (tr, Continue (client, cntlrTable, driveTable)) ->
  Values (cntlr.Snmp cntlrTable) <> [] ->
  check_hp_firmware_ilo.GetControllersFromTable C I w cntlrTable = Ok controllers ->
  Values (phy_drv.Snmp driveTable) <> [] ->
  check_hp_firmware_ilo.GetPhysicalDrivesFromTable C I w driveTable = Ok drives ->
  (forall iloData,
     check_hp_firmware_ilo.ignoreIlo C I w = false ->
     check_hp_firmware_ilo.GetIloInformation C I w client = Ok iloData ->
     fst (check_hp_firmware_ilo.main C I w)
     = (tr ++ check_hp_firmware_ilo.EvExtractControllers
           :: check_hp_firmware_ilo.EvExtractDrives
           :: check_hp_firmware_ilo.EvIloInformation
           :: check_hp_firmware_ilo.EvIloStatus iloData
           :: map check_hp_firmware_ilo.EvControllerStatus controllers
              ++ map check_hp_firmware_ilo.EvDriveStatus drives)%list /\
     exists output,
       snd (check_hp_firmware_ilo.main C I w)
       = Halt (Exited
                 (nagios.rc
                    (nagios.GetStatus
                       (nagios.AddAll nagios.empty
                          (check_hp_firmware_ilo.ilo_GetNagiosStatus C I w iloData
                           :: map (check_hp_firmware_ilo.controller_GetNagiosStatus C I w)
                                  controllers
                              ++ map (check_hp_firmware_ilo.drive_GetNagiosStatus C I w)
                                     drives)%list)))
                 output)) /\
  (check_hp_firmware_ilo.ignoreIlo C I w = true ->
   fst (check_hp_firmware_ilo.main C I w)
   = (tr ++ check_hp_firmware_ilo.EvExtractControllers
         :: check_hp_firmware_ilo.EvExtractDrives
         :: map check_hp_firmware_ilo.EvControllerStatus controllers
            ++ map check_hp_firmware_ilo.EvDriveStatus drives)%list /\
   exists output,
     snd (check_hp_firmware_ilo.main C I w)
     = Halt (Exited
               (nagios.rc
                  (nagios.GetStatus
                     (nagios.AddAll nagios.empty
                        (map (check_hp_firmware_ilo.controller_GetNagiosStatus C I w)
                             controllers
                         ++ map (check_hp_firmware_ilo.drive_GetNagiosStatus C I w)
                                drives)%list)))
               output)).
Proof.
  intros Hload Hc He Hd Hx.
  unfold check_hp_firmware_ilo.main.
  rewrite (trace_bind_continue tr _ _ _ Hload).
  rewrite (ilo_main_check_run C I w client cntlrTable driveTable controllers drives
             Hc He Hd Hx).
  unfold check_hp_firmware_ilo.check_ilo.
  split.
  - intros iloData Hign Hilo. rewrite Hign, Hilo.
    cbn [negb trace.bind trace.emit trace.check_result trace.ret app].
    destruct (check_hp_firmware_ilo.ilo_GetNagiosStatus C I w iloData) as [s d].
    cbn. split; [reflexivity|]. eexists. reflexivity.
  - intros Hign. rewrite Hign.
    cbn. split; [reflexivity|]. eexists. reflexivity.
Qed.

Lemma ilo_complete_run_witness :
  fst (check_hp_firmware_ilo.main string string
         (check_hp_firmware_ilo.file_world false check_hp_firmware.one_controller_table
            check_hp_firmware.one_drive_table (Ok "2.10")))
  = ([check_hp_firmware_ilo.EvNewFileHandler "walk.txt";
      check_hp_firmware_ilo.EvConnect ConnectDefault
        (check_hp_firmware_ilo.FileHandler "walk.txt");
      check_hp_firmware_ilo.EvWalkControllers;
      check_hp_firmware_ilo.EvWalkDrives]
     ++ check_hp_firmware_ilo.EvExtractControllers
        :: check_hp_firmware_ilo.EvExtractDrives
        :: check_hp_firmware_ilo.EvIloInformation
        :: check_hp_firmware_ilo.EvIloStatus "2.10"
        :: map check_hp_firmware_ilo.EvControllerStatus ["0"]
           ++ map check_hp_firmware_ilo.EvDriveStatus [phy_drv.test_drive])%list.
Proof.
  exact (proj1 (proj1 (ilo_complete_run string string
                         (check_hp_firmware_ilo.file_world false
                            check_hp_firmware.one_controller_table
                            check_hp_firmware.one_drive_table (Ok "2.10"))
                         [check_hp_firmware_ilo.EvNewFileHandler "walk.txt";
                          check_hp_firmware_ilo.EvConnect ConnectDefault
                            (check_hp_firmware_ilo.FileHandler "walk.txt");
                          check_hp_firmware_ilo.EvWalkControllers;
                          check_hp_firmware_ilo.EvWalkDrives]
                         (check_hp_firmware_ilo.FileHandler "walk.txt")
                         check_hp_firmware.one_controller_table
                         check_hp_firmware.one_drive_table
                         ["0"] [phy_drv.test_drive]
                         eq_refl ltac:(discriminate) eq_refl ltac:(discriminate) eq_refl)
                  "2.10" eq_refl eq_refl)).
Defined.

(** X16: when the iLO is not ignored and [GetIloInformation] fails, the
    first [main] of the later program ends with that error although both
    record lists were extracted: no controller and no drive is evaluated. *)
Theorem ilo_error_is_fatal
    (C I : Type) (w : check_hp_firmware_ilo.World C I)
    (tr : list (check_hp_firmware_ilo.event C I))
    (client : check_hp_firmware_ilo.Handler)
    (cntlrTable : cntlr.CpqDaCntlrTable) (driveTable : phy_drv.CpqDaPhyDrvTable)
    (controllers : list C) (drives : list phy_drv.PhysicalDrive) (e : string) :
  check_hp_firmware_ilo.main_load C I w
  = (tr, Continue (client, cntlrTable, driveTable)) ->
  Values (cntlr.Snmp cntlrTable) <> [] ->
  check_hp_firmware_ilo.GetControllersFromTable C I w cntlrTable = Ok controllers ->
  Values (phy_drv.Snmp driveTable) <> [] ->
  check_hp_firmware_ilo.GetPhysicalDrivesFromTable C I w driveTable = Ok drives ->
  check_hp_firmware_ilo.ignoreIlo C I w = false ->
  check_hp_firmware_ilo.GetIloInformation C I w client = Err e ->
  check_hp_firmware_ilo.main C I w
  = ((tr ++ [check_hp_firmware_ilo.EvExtractControllers;
             check_hp_firmware_ilo.EvExtractDrives;
             check_hp_firmware_ilo.EvIloInformation])%list,
     Halt (ExitedError e)) /\
  trace.only (fun ev => negb (check_hp_firmware_ilo.is_status ev))
    (check_hp_firmware_ilo.main C I w).
Proof.
  intros Hload Hc He Hd Hx Hign Hilo.
  assert (Hcheck : check_hp_firmware_ilo.main_check C I w (client, cntlrTable, driveTable)
                   = ([check_hp_firmware_ilo.EvExtractControllers;
                       check_hp_firmware_ilo.EvExtractDrives;
                       check_hp_firmware_ilo.EvIloInformation],
                      Halt (ExitedError e))).
  { rewrite (ilo_main_check_run C I w client cntlrTable driveTable controllers drives
               Hc He Hd Hx).
    unfold check_hp_firmware_ilo.check_ilo. rewrite Hign, Hilo. reflexivity. }
  assert (Hmain : check_hp_firmware_ilo.main C I w
                  = ((tr ++ [check_hp_firmware_ilo.EvExtractControllers;
                             check_hp_firmware_ilo.EvExtractDrives;
                             check_hp_firmware_ilo.EvIloInformation])%list,
                     Halt (ExitedError e))).
  { unfold check_hp_firmware_ilo.main.
    rewrite (trace_bind_continue tr _ _ _ Hload), Hcheck. reflexivity. }
  split; [exact Hmain|].
  pose proof (ilo_main_load_no_status C I w) as Hq.
  unfold trace.only in *. rewrite Hload in Hq. rewrite Hmain. simpl in *.
  rewrite forallb_app, Hq. reflexivity.
Qed.

Lemma ilo_error_is_fatal_witness :
  check_hp_firmware_ilo.main string string
    (check_hp_firmware_ilo.file_world false check_hp_firmware.one_controller_table
       check_hp_firmware.one_drive_table (Err "timeout"))
  = (([check_hp_firmware_ilo.EvNewFileHandler "walk.txt";
       check_hp_firmware_ilo.EvConnect ConnectDefault
         (check_hp_firmware_ilo.FileHandler "walk.txt");
       check_hp_firmware_ilo.EvWalkControllers;
       check_hp_firmware_ilo.EvWalkDrives]
      ++ [check_hp_firmware_ilo.EvExtractControllers;
          check_hp_firmware_ilo.EvExtractDrives;
          check_hp_firmware_ilo.EvIloInformation])%list,
     Halt (ExitedError "timeout")).
Proof.
  exact (proj1 (ilo_error_is_fatal string string
                  (check_hp_firmware_ilo.file_world false
                     check_hp_firmware.one_controller_table
                     check_hp_firmware.one_drive_table (Err "timeout"))
                  [check_hp_firmware_ilo.EvNewFileHandler "walk.txt";
                   check_hp_firmware_ilo.EvConnect ConnectDefault
                     (check_hp_firmware_ilo.FileHandler "walk.txt");
                   check_hp_firmware_ilo.EvWalkControllers;
                   check_hp_firmware_ilo.EvWalkDrives]
                  (check_hp_firmware_ilo.FileHandler "walk.txt")
                  check_hp_firmware.one_controller_table
                  check_hp_firmware.one_drive_table
                  ["0"] [phy_drv.test_drive] "timeout"
                  eq_refl ltac:(discriminate) eq_refl ltac:(discriminate) eq_refl
                  eq_refl eq_refl)).
Defined.

(** X18: a command line that does not parse ends the run at once.  For the
    help request the usage text is printed first (the usage line, the
    readme, the version, an empty line, "Arguments:" and the flag
    defaults), for any other error nothing is.  main.go then reports the
    error with [nagios.ExitError] unless it is the help request, which ends
    with [os.Exit(3)]; both [main]s of the later program do the opposite:
    they report the help request with [nagios.ExitError] and end every
    other parse error with [os.Exit(3)]. *)
Theorem command_line_errors (err : string) (isHelp : bool) :
  (forall w : check_hp_disk_firmware.World,
     check_hp_disk_firmware.args w = ParseError err isHelp ->
     check_hp_disk_firmware.main w
     = if isHelp
       then ([EvPrint ("Usage: " ++ check_hp_disk_firmware.argv0 w
                         ++ " [-H <hostname>] [-c <community>]" ++ LF);
              EvPrint (check_hp_disk_firmware.Readme ++ LF);
              EvPrint ("Version: "
                         ++ check_hp_disk_firmware.buildVersion
                              (check_hp_disk_firmware.GitCommit w) ++ LF);
              EvPrint LF;
              EvPrint ("Arguments:" ++ LF);
              EvPrint (check_hp_disk_firmware.flag_defaults w)],
             Halt (OsExited 3))
       else ([], Halt (ExitedError err))) /\
  (forall (C : Type) (w : check_hp_firmware.World C),
     check_hp_firmware.args C w = ParseError err isHelp ->
     check_hp_firmware.main C w
     = if isHelp
       then ([EvPrint ("Usage: " ++ check_hp_firmware.argv0 C w
                         ++ " [-H <hostname>] [-c <community>]" ++ LF);
              EvPrint (check_hp_firmware.Readme ++ LF);
              EvPrint ("Version: "
                         ++ check_hp_firmware.buildVersion
                              (check_hp_firmware.commit C w)
                              (check_hp_firmware.date C w) ++ LF);
              EvPrint LF;
              EvPrint ("Arguments:" ++ LF);
              EvPrint (check_hp_firmware.flag_defaults C w)],
             Halt (ExitedError err))
       else ([], Halt (OsExited 3))) /\
  (forall (C I : Type) (w : check_hp_firmware_ilo.World C I),
     check_hp_firmware_ilo.args C I w = ParseError err isHelp ->
     check_hp_firmware_ilo.main C I w
     = if isHelp
       then ([check_hp_firmware_ilo.EvPrint
                ("Usage: " ++ check_hp_firmware_ilo.argv0 C I w
                   ++ " [-H <hostname>] [-c <community>]" ++ LF);
              check_hp_firmware_ilo.EvPrint (check_hp_firmware_ilo.Readme ++ LF);
              check_hp_firmware_ilo.EvPrint
                ("Version: "
                   ++ check_hp_firmware.buildVersion
                        (check_hp_firmware_ilo.commit C I w)
                        (check_hp_firmware_ilo.date C I w) ++ LF);
              check_hp_firmware_ilo.EvPrint LF;
              check_hp_firmware_ilo.EvPrint ("Arguments:" ++ LF);
              check_hp_firmware_ilo.EvPrint (check_hp_firmware_ilo.flag_defaults C I w)],
             Halt (ExitedError err))
       else ([], Halt (OsExited 3))).
Proof.
  split; [|split].
  - intros w H. unfold check_hp_disk_firmware.main, check_hp_disk_firmware.main_load.
    rewrite H. destruct isHelp; reflexivity.
  - intros C w H. unfold check_hp_firmware.main, check_hp_firmware.main_load.
    rewrite H. destruct isHelp; reflexivity.
  - intros C I w H. unfold check_hp_firmware_ilo.main, check_hp_firmware_ilo.main_load.
    rewrite H. destruct isHelp; reflexivity.
Qed.

(** An unknown flag and the help request on the command line of main.go. *)
Lemma command_line_errors_witness :
  check_hp_disk_firmware.main
    (disk_set_args
       (check_hp_disk_firmware.sample_world disk_file_flags
          check_hp_firmware.one_drive_table)
       (ParseError "unknown flag: --foo" false))
  = ([], Halt (ExitedError "unknown flag: --foo")) /\
  check_hp_disk_firmware.main
    (disk_set_args
       (check_hp_disk_firmware.sample_world disk_file_flags
          check_hp_firmware.one_drive_table)
       (ParseError "pflag: help requested" true))
  = ([EvPrint ("Usage: check_hp_disk_firmware [-H <hostname>] [-c <community>]" ++ LF);
      EvPrint (check_hp_disk_firmware.Readme ++ LF);
      EvPrint ("Version: 1.0.0" ++ LF);
      EvPrint LF;
      EvPrint ("Arguments:" ++ LF);
      EvPrint ""],
     Halt (OsExited 3)) /\
  check_hp_firmware.main string
    (check_hp_firmware.mkWorld string
       (ParseError "pflag: help requested" true) "check_hp_firmware" ""
       "check_hp_firmware" "" ""
       (fun _ => None) (fun _ => Err "") None (fun _ => Err "")
       (fun _ => Err "") (fun _ _ => None) (fun _ => Err "") (fun _ => Err "")
       (fun _ => Err "") (fun _ => Err "")
       (fun c => (nagios.OK, c)) (fun d => (nagios.OK, phy_drv.Id d)))
  = ([EvPrint ("Usage: check_hp_firmware [-H <hostname>] [-c <community>]" ++ LF);
      EvPrint (check_hp_firmware.Readme ++ LF);
      EvPrint ("Version: 1.2.0" ++ LF);
      EvPrint LF;
      EvPrint ("Arguments:" ++ LF);
      EvPrint ""],
     Halt (ExitedError "pflag: help requested")).
Proof.
  split; [|split].
  - apply (proj1 (command_line_errors "unknown flag: --foo" false)). reflexivity.
  - apply (proj1 (command_line_errors "pflag: help requested" true)). reflexivity.
  - apply (proj1 (proj2 (command_line_errors "pflag: help requested" true)) string).
    reflexivity.
Defined.

(** X19: with the version flag each [main] prints one line, made of the
    program name, " version ", the result of [buildVersion] and a line
    feed, and ends with exit status 3; nothing is opened, connected to,
    walked, extracted or evaluated, whatever the other flags say. *)
Theorem version_flag_only_prints (f : Flags) :
  show_version f = true ->
  (forall w : check_hp_disk_firmware.World,
     check_hp_disk_firmware.args w = Parsed f ->
     check_hp_disk_firmware.main w
     = ([EvPrint ("check_hp_disk_firmware version "
                    ++ check_hp_disk_firmware.buildVersion
                         (check_hp_disk_firmware.GitCommit w) ++ LF)],
        Halt (OsExited 3))) /\
  (forall (C : Type) (w : check_hp_firmware.World C),
     check_hp_firmware.args C w = Parsed f ->
     check_hp_firmware.main C w
     = ([EvPrint (check_hp_firmware.Project C w ++ " version "
                    ++ check_hp_firmware.buildVersion
                         (check_hp_firmware.commit C w) (check_hp_firmware.date C w)
                    ++ LF)],
        Halt (OsExited 3))) /\
  (forall (C I : Type) (w : check_hp_firmware_ilo.World C I),
     check_hp_firmware_ilo.args C I w = Parsed f ->
     check_hp_firmware_ilo.main C I w
     = ([check_hp_firmware_ilo.EvPrint
           ("check_hp_firmware version "
              ++ check_hp_firmware.buildVersion
                   (check_hp_firmware_ilo.commit C I w)
                   (check_hp_firmware_ilo.date C I w)
              ++ LF)],
        Halt (OsExited 3))).
Proof.
  intros Hv. split; [|split].
  - intros w H. unfold check_hp_disk_firmware.main, check_hp_disk_firmware.main_load.
    rewrite H, Hv. reflexivity.
  - intros C w H. unfold check_hp_firmware.main, check_hp_firmware.main_load.
    rewrite H, Hv. reflexivity.
  - intros C I w H. unfold check_hp_firmware_ilo.main, check_hp_firmware_ilo.main_load.
    rewrite H, Hv. reflexivity.
Qed.

Lemma version_flag_only_prints_witness :
  check_hp_disk_firmware.main
    (disk_set_args
       (check_hp_disk_firmware.sample_world disk_file_flags
          check_hp_firmware.one_drive_table)
       (Parsed (mkFlags "localhost" "public" "9" 15 "" false false true false)))
  = ([EvPrint ("check_hp_disk_firmware version "
                 ++ check_hp_disk_firmware.buildVersion "" ++ LF)],
     Halt (OsExited 3)).
Proof.
  apply (proj1 (version_flag_only_prints
                  (mkFlags "localhost" "public" "9" 15 "" false false true false)
                  eq_refl)).
  reflexivity.
Defined.

(** ** The timeout *)

Lemma wrap64_exact (z : Z) :
  wrap64 z = z <-> (- 9223372036854775808 <= z < 9223372036854775808)%Z.
Proof.
  unfold wrap64.
  change (2 ^ 63)%Z with 9223372036854775808%Z.
  change (2 ^ 64)%Z with 18446744073709551616%Z.
  pose proof (Z.mod_pos_bound (z + 9223372036854775808) 18446744073709551616
                ltac:(lia)) as Hb.
  split.
  - intros H. lia.
  - intros H. rewrite Z.mod_small by lia. lia.
Qed.

Lemma wrap64_range (z : Z) :
  (- 9223372036854775808 <= wrap64 z < 9223372036854775808)%Z.
Proof.
  unfold wrap64.
  change (2 ^ 63)%Z with 9223372036854775808%Z.
  change (2 ^ 64)%Z with 18446744073709551616%Z.
  pose proof (Z.mod_pos_bound (z + 9223372036854775808) 18446744073709551616
                ltac:(lia)) as Hb.
  lia.
Qed.

(** X20: the client's timeout is the timeout flag in nanoseconds exactly
    when the flag is between -9223372036 and 9223372036 seconds; outside
    that range the [int64] product wraps around, and the timeout is some
    other [int64] (for 9223372037 seconds a negative one). *)
Theorem timeout_flag_overflow (w : check_hp_disk_firmware.World) (f : Flags) :
  (snmp.Timeout (check_hp_disk_firmware.make_client w f)
   = (timeout f * 1000000000)%Z
   <-> (- 9223372036 <= timeout f <= 9223372036)%Z) /\
  (- 9223372036854775808
   <= snmp.Timeout (check_hp_disk_firmware.make_client w f)
   < 9223372036854775808)%Z /\
  (timeout f = 9223372037%Z ->
   snmp.Timeout (check_hp_disk_firmware.make_client w f) = (-9223372036709551616)%Z).
Proof.
  unfold check_hp_disk_firmware.make_client. simpl snmp.Timeout. unfold seconds.
  split; [|split].
  - rewrite wrap64_exact. lia.
  - apply wrap64_range.
  - intros ->. reflexivity.
Qed.

Lemma timeout_flag_overflow_witness :
  snmp.Timeout
    (check_hp_disk_firmware.make_client
       (check_hp_disk_firmware.sample_world disk_file_flags
          check_hp_firmware.one_drive_table)
       (mkFlags "localhost" "public" "2c" 9223372037 "" false false false false))
  = (-9223372036709551616)%Z.
Proof.
  apply (proj2 (proj2 (timeout_flag_overflow
                         (check_hp_disk_firmware.sample_world disk_file_flags
                            check_hp_firmware.one_drive_table)
                         (mkFlags "localhost" "public" "2c" 9223372037 ""
                                  false false false false)))).
  reflexivity.
Defined.

(** ** buildVersion *)

Lemma append_empty_iff (a b : string) : a ++ b = a <-> b = "".
Proof.
  split.
  - intros H. apply (f_equal length) in H. rewrite length_append in H.
    destruct b; [reflexivity | simpl in H; lia].
  - intros ->. apply append_empty_r.
Qed.

(** X21: [buildVersion] always starts with the version number; in
    version.go it is the bare number exactly when no commit is linked in,
    and in the later program exactly when neither a commit nor a date is;
    when both are, the commit line comes before the date line. *)
Theorem buildVersion_shape :
  (forall GitCommit,
     exists rest,
       check_hp_disk_firmware.buildVersion GitCommit
       = check_hp_disk_firmware.Version ++ rest /\
       (check_hp_disk_firmware.buildVersion GitCommit = check_hp_disk_firmware.Version
        <-> GitCommit = "")) /\
  (forall commit date,
     exists rest,
       check_hp_firmware.buildVersion commit date = check_hp_firmware.version ++ rest /\
       (check_hp_firmware.buildVersion commit date = check_hp_firmware.version
        <-> commit = "" /\ date = "") /\
       (commit <> "" -> date <> "" ->
        rest = LF ++ "commit: " ++ commit ++ LF ++ "date: " ++ date)).
Proof.
  split.
  - intros g. unfold check_hp_disk_firmware.buildVersion.
    destruct (String.eqb_spec g "") as [E|E]; simpl negb; cbv iota.
    + exists "". split; [reflexivity|]. split; [intros _; exact E | reflexivity].
    + exists (" - " ++ g). split; [reflexivity|].
      rewrite append_empty_iff. split; [discriminate | contradiction].
  - intros c d. unfold check_hp_firmware.buildVersion.
    destruct (String.eqb_spec c "") as [Ec|Ec], (String.eqb_spec d "") as [Ed|Ed];
      simpl negb; cbv iota.
    + exists "". split; [reflexivity|]. split; [tauto|]. contradiction.
    + exists (LF ++ "date: " ++ d). split; [reflexivity|].
      split; [|contradiction].
      rewrite append_empty_iff. split; [discriminate | tauto].
    + exists (LF ++ "commit: " ++ c). split; [reflexivity|].
      split; [|contradiction].
      rewrite append_empty_iff. split; [discriminate | tauto].
    + exists (LF ++ "commit: " ++ c ++ LF ++ "date: " ++ d).
      split; [|split; [|reflexivity]].
      * rewrite !append_assoc. reflexivity.
      * rewrite !append_assoc.
        change (check_hp_firmware.version ++ LF ++ "commit: " ++ c ++ LF ++ "date: " ++ d)
          with (check_hp_firmware.version
                  ++ (LF ++ "commit: " ++ c ++ LF ++ "date: " ++ d)).
        rewrite append_empty_iff. split; [discriminate | tauto].
Qed.
